(** * py4cytoscape: utility validators, identifier translators and
      style-dependency setters

    A shallow embedding of [py4cytoscape/py4cytoscape_utils.py] and
    [py4cytoscape/style_dependencies.py], with the properties of the
    repository's specification stated and proved about it. *)

From Stdlib Require Import ZArith Bool List String Ascii Floats Uint63 Lia.
Import ListNotations.
Open Scope string_scope.
Open Scope Z_scope.

Set Warnings "-register-all".

(** ** Python values *)

Module Py.

(** The Python objects that reach the modelled functions.  A [string] is a
    sequence of characters, one [ascii] per code point, so that [String.length]
    is Python's [len].  A [float] is an IEEE 754 binary64, as in CPython. *)
Inductive pyval : Type :=
| PyNone
| PyBool (b : bool)
| PyInt (z : Z)
| PyFloat (f : float)
| PyStr (s : string)
| PyList (l : list pyval)
| PyDict (d : list (string * pyval)).

(** The double-quote character (code point 34), used inside messages. *)
Definition dquote : string := String (ascii_of_nat 34) EmptyString.

(** An f-string, kept as its segments: literal text and formatted values. *)
Inductive fpart : Type :=
| Lit (s : string)
| Fmt (v : pyval).

Definition message : Type := list fpart.

(** Exceptions.  [CyError(message, caller=...)] is the single error kind the
    modules raise on their own; the others are raised by the interpreter. *)
Inductive exn : Type :=
| CyError (msg : message) (caller : option string)
| TypeError
| AttributeError
| RequestException (detail : string).

Inductive result (A : Type) : Type :=
| Ret (a : A)
| Raise (e : exn).
Arguments Ret {A} a.
Arguments Raise {A} e.

Definition bind {A B} (r : result A) (k : A -> result B) : result B :=
  match r with
  | Ret a => k a
  | Raise e => Raise e
  end.

(** [isinstance(v, list)] *)
Definition is_list (v : pyval) : bool :=
  match v with PyList _ => true | _ => false end.

(** [if not isinstance(v, list): v = [v]], followed by iteration over [v]. *)
Definition as_list (v : pyval) : list pyval :=
  match v with PyList l => l | _ => [v] end.

(** A [for] loop whose body either raises or falls through. *)
Fixpoint for_each {A} (body : A -> result unit) (l : list A) : result unit :=
  match l with
  | [] => Ret tt
  | x :: l' => bind (body x) (fun _ => for_each body l')
  end.

(** Numbers: the objects for which
    [isinstance(v, float) or isinstance(v, int)] holds.  [bool] is a
    subclass of [int], with [True == 1] and [False == 0]. *)
Inductive number : Type :=
| NInt (z : Z)
| NFloat (f : float).

Definition as_number (v : pyval) : option number :=
  match v with
  | PyBool b => Some (NInt (Z.b2z b))
  | PyInt z => Some (NInt z)
  | PyFloat f => Some (NFloat f)
  | _ => None
  end.

(** The float equal to a small integer literal (exact below 2^53). *)
Definition float_of_literal (n : Z) : float :=
  PrimFloat.of_uint63 (Uint63.of_Z n).

(** [x < n] and [x > n] for an integer literal [n].  Python compares a float
    with an int by value; for the literals used here that is the IEEE
    comparison with the literal's float, false on NaN. *)
Definition num_lt (x : number) (n : Z) : bool :=
  match x with
  | NInt z => z <? n
  | NFloat f => PrimFloat.ltb f (float_of_literal n)
  end.

Definition num_gt (x : number) (n : Z) : bool :=
  match x with
  | NInt z => n <? z
  | NFloat f => PrimFloat.ltb (float_of_literal n) f
  end.

(** Truth value of an object, as tested by [if] and the conditional
    expression. *)
Definition truthy (v : pyval) : bool :=
  match v with
  | PyNone => false
  | PyBool b => b
  | PyInt z => negb (z =? 0)
  | PyFloat f => negb (PrimFloat.eqb f (float_of_literal 0))
  | PyStr s => negb (String.eqb s EmptyString)
  | PyList l => match l with [] => false | _ => true end
  | PyDict d => match d with [] => false | _ => true end
  end.

End Py.
Import Py.

(** ** py4cytoscape_utils: validators *)

Module Utils.

(** [verify_hex_colors(colors)].  [caller] is the name that
    [sys._getframe(1).f_code.co_name] reads off the calling frame.
    [color.startswith] exists on strings only. *)
Definition check_hex_color (caller : string) (color : pyval) : result unit :=
  match color with
  | PyStr s =>
      if negb (String.prefix "#" s) || negb (Nat.eqb (String.length s) 7)
      then Raise (CyError
             [Lit dquote; Fmt color; Lit dquote;
              Lit " is not a valid hexadecimal color (has to begin with # and be 7 characters long, for example: #FF00FF)."]
             (Some caller))
      else Ret tt
  | _ => Raise AttributeError
  end.

Definition verify_hex_colors (caller : string) (colors : pyval) : result unit :=
  match colors with
  | PyNone => Ret tt
  | _ => for_each (check_hex_color caller) (as_list colors)
  end.

(** [verify_opacities(opacities)].  The test is
    [not (isinstance(opacity, float) or isinstance(opacity, int)) or
     opacity < 0 or opacity > 255]; [or] evaluates the comparisons for numbers
    only. *)
Definition opacity_rejected (opacity : pyval) : bool :=
  match as_number opacity with
  | None => true
  | Some x => num_lt x 0 || num_gt x 255
  end.

Definition check_opacity (caller : string) (opacity : pyval) : result unit :=
  if opacity_rejected opacity
  then Raise (CyError
         [Lit dquote; Fmt opacity; Lit dquote;
          Lit " is not a valid opacity (has to be an integer between 0 and 255)."]
         (Some caller))
  else Ret tt.

Definition verify_opacities (caller : string) (opacities : pyval) : result unit :=
  match opacities with
  | PyNone => Ret tt
  | _ => for_each (check_opacity caller) (as_list opacities)
  end.

(** [verify_dimensions(dimension, sizes)], with the test
    [not isinstance(size, float) and not isinstance(size, int)]. *)
Definition dimension_rejected (size : pyval) : bool :=
  match as_number size with
  | None => true
  | Some _ => false
  end.

Definition check_dimension (caller : string) (dimension : string) (size : pyval)
  : result unit :=
  if dimension_rejected size
  then Raise (CyError
         [Lit "Illegal "; Lit dimension; Lit " "; Lit dquote; Fmt size; Lit dquote;
          Lit ". It needs to be a number."]
         (Some caller))
  else Ret tt.

Definition verify_dimensions (caller : string) (dimension : string) (sizes : pyval)
  : result unit :=
  match sizes with
  | PyNone => Ret tt
  | _ => for_each (check_dimension caller dimension) (as_list sizes)
  end.

(** [verify_slot(slot)]: one test on the argument itself,
    [not (isinstance(slot, float) or isinstance(slot, int)) or
     slot < 1 or slot > 9], with no guard for [None] and no loop. *)
Definition slot_rejected (slot : pyval) : bool :=
  match as_number slot with
  | None => true
  | Some x => num_lt x 1 || num_gt x 9
  end.

Definition verify_slot (caller : string) (slot : pyval) : result unit :=
  if slot_rejected slot
  then Raise (CyError [Lit "slot must be an integer between 1 and 9"] (Some caller))
  else Ret tt.

(** *** Identifier translation *)

(** An element of a batch: a name (a Python [str]) or a SUID (an [int]), the
    two kinds of identifier of the data model.  Default arguments
    ([network=None], [base_url=DEFAULT_BASE_URL]) are passed explicitly. *)
Inductive ident : Type :=
| Name (s : string)
| Suid (z : Z).

Definition py_of_ident (x : ident) : pyval :=
  match x with
  | Name s => PyStr s
  | Suid z => PyInt z
  end.

(** The [node_names] / [node_suids] argument: [None], one string, a list, or
    (outside the documented types) one integer. *)
Inductive batch_arg : Type :=
| ArgNone
| ArgStr (s : string)
| ArgInt (z : Z)
| ArgList (l : list ident).

(** An element of the translated list: what was passed in, one SUID, or the
    list of SUIDs a name is bound to. *)
Inductive translated : Type :=
| One (x : ident)
| Many (suids : list Z).

(** The data frame [tables.get_table_columns(table, ['name'], 'default', ...)]
    returns: its index holds the SUIDs, its only column the names, row by
    row. *)
Record row : Type := { suid : Z; name : string }.

Definition dataframe : Type := list row.

(** [df.index] and [df['name'].values] *)
Definition index (df : dataframe) : list Z := map suid df.
Definition names (df : dataframe) : list string := map name df.

(** The [network] argument: a SUID, a name, or [None] for the current one. *)
Definition network : Type := option ident.

(** [if isinstance(v, str): v = [v]], then iteration over [v]; an [int] is
    not iterable. *)
Definition iterate (v : batch_arg) : result (list ident) :=
  match v with
  | ArgNone => Raise TypeError
  | ArgStr s => Ret [Name s]
  | ArgInt _ => Raise TypeError
  | ArgList l => Ret l
  end.

(** [x in df.index]: a string is never a member of the integer index. *)
Definition index_contains (all_suids : list Z) (x : ident) : bool :=
  match x with
  | Suid z => existsb (Z.eqb z) all_suids
  | Name _ => false
  end.

(** One cell of [df.name.eq(x)]: a name cell never equals an integer. *)
Definition name_eq (x : ident) (r : row) : bool :=
  match x with
  | Name s => String.eqb (name r) s
  | Suid _ => false
  end.

(** [list(df[df.name.eq(x)].index.values)] *)
Definition suids_named (df : dataframe) (x : ident) : list Z :=
  index (filter (name_eq x) df).

(** [x in df['name'].values]: an integer is never a member of the names. *)
Definition names_contain (all_names : list string) (x : ident) : bool :=
  match x with
  | Name s => existsb (String.eqb s) all_names
  | Suid _ => false
  end.

(** [all_suids_list.index(x)]: the first position holding [x], or
    [ValueError] (here [None]). *)
Fixpoint list_index (all_suids_list : list Z) (z : Z) : option nat :=
  match all_suids_list with
  | [] => None
  | y :: l' => if Z.eqb y z then Some O
               else option_map S (list_index l' z)
  end.

(** [all_names[all_suids_list.index(x)]], [None] when any step raises. *)
Definition name_of_suid (all_names : list string) (all_suids_list : list Z)
  (x : ident) : option string :=
  match x with
  | Suid z =>
      match list_index all_suids_list z with
      | Some i => nth_error all_names i
      | None => None
      end
  | Name _ => None
  end.

(** A list comprehension whose element expression may raise. *)
Fixpoint comprehension {A B} (f : A -> option B) (l : list A) : option (list B) :=
  match l with
  | [] => Some []
  | x :: l' =>
      match f x with
      | Some y => option_map (cons y) (comprehension f l')
      | None => None
      end
  end.

(** [x[0] if len(x) == 1 else x] *)
Definition scalar_if_single (x : list Z) : translated :=
  match x with
  | [z] => One (Suid z)
  | _ => Many x
  end.

Section Translators.

(** The table collaborator [tables.get_table_columns(table, columns,
    namespace, network, base_url)], which may raise. *)
Variable get_table_columns :
  string -> list string -> string -> network -> string -> result dataframe.

(** [node_name_to_node_suid(node_names, network, base_url)].  [None] is
    returned before the table is fetched; the fast path returns the list
    it was given. *)
Definition node_name_to_node_suid (node_names : batch_arg) (network : network)
  (base_url : string) : result (option (list translated)) :=
  match node_names with
  | ArgNone => Ret None
  | _ =>
      bind (get_table_columns "node" ["name"] "default" network base_url) (fun df =>
      let all_suids := index df in
      bind (iterate node_names) (fun node_names =>
      let test_present := map (index_contains all_suids) node_names in
      if negb (existsb (Bool.eqb false) test_present)
      then Ret (Some (map One node_names))
      else
        let node_suids := map (suids_named df) node_names in
        if existsb (Bool.eqb true)
             (map (fun x => if Nat.eqb (List.length x) 0 then true else false)
                  node_suids)
        then Raise (CyError
               [Lit "Invalid name in node name list: "; Fmt (PyList (map py_of_ident node_names))] None)
        else Ret (Some (map scalar_if_single node_suids))))
  end.

(** [node_suid_to_node_name(node_suids, network, base_url)].  The [try]
    block turns any exception of the lookup into the [CyError]. *)
Definition node_suid_to_node_name (node_suids : batch_arg) (network : network)
  (base_url : string) : result (option (list ident)) :=
  match node_suids with
  | ArgNone => Ret None
  | _ =>
      bind (get_table_columns "node" ["name"] "default" network base_url) (fun df =>
      let all_names := names df in
      bind (iterate node_suids) (fun node_suids =>
      let test_present := map (names_contain all_names) node_suids in
      if negb (existsb (Bool.eqb false) test_present)
      then Ret (Some node_suids)
      else
        let all_suids_list := index df in
        match comprehension (name_of_suid all_names all_suids_list) node_suids with
        | Some node_names => Ret (Some (map Name node_names))
        | None => Raise (CyError
               [Lit "Invalid node SUID in list: "; Fmt (PyList (map py_of_ident node_suids))] None)
        end))
  end.

(** [edge_name_to_edge_suid(edge_names, network, base_url)] *)
Definition edge_name_to_edge_suid (edge_names : batch_arg) (network : network)
  (base_url : string) : result (option (list translated)) :=
  match edge_names with
  | ArgNone => Ret None
  | _ =>
      bind (get_table_columns "edge" ["name"] "default" network base_url) (fun df =>
      let all_suids := index df in
      bind (iterate edge_names) (fun edge_names =>
      let test_present := map (index_contains all_suids) edge_names in
      if negb (existsb (Bool.eqb false) test_present)
      then Ret (Some (map One edge_names))
      else
        let edge_suids := map (suids_named df) edge_names in
        if existsb (Bool.eqb true)
             (map (fun x => if Nat.eqb (List.length x) 0 then true else false)
                  edge_suids)
        then Raise (CyError
               [Lit "Invalid edge name in list: "; Fmt (PyList (map py_of_ident edge_names))] None)
        else Ret (Some (map scalar_if_single edge_suids))))
  end.

(** [edge_suid_to_edge_name(edge_suids, network, base_url)] *)
Definition edge_suid_to_edge_name (edge_suids : batch_arg) (network : network)
  (base_url : string) : result (option (list ident)) :=
  match edge_suids with
  | ArgNone => Ret None
  | _ =>
      bind (get_table_columns "edge" ["name"] "default" network base_url) (fun df =>
      let all_names := names df in
      bind (iterate edge_suids) (fun edge_suids =>
      let test_present := map (names_contain all_names) edge_suids in
      if negb (existsb (Bool.eqb false) test_present)
      then Ret (Some edge_suids)
      else
        let all_suids_list := index df in
        match comprehension (name_of_suid all_names all_suids_list) edge_suids with
        | Some edge_names => Ret (Some (map Name edge_names))
        | None => Raise (CyError
               [Lit "Invalid edge SUID in list: "; Fmt (PyList (map py_of_ident edge_suids))] None)
        end))
  end.

End Translators.

(** *** Vocabulary of the statements *)

(** The value of the two name translators on the list [l] once the table
    [df] is in hand, with [error_text] the opening of the error message. *)
Definition resolved (df : dataframe) (error_text : string) (l : list ident)
  : result (option (list translated)) :=
  if forallb (index_contains (index df)) l
  then Ret (Some (map One l))
  else if existsb (fun x => Nat.eqb (List.length x) 0) (map (suids_named df) l)
  then Raise (CyError [Lit error_text; Fmt (PyList (map py_of_ident l))] None)
  else Ret (Some (map scalar_if_single (map (suids_named df) l))).

(** The rows of [df] whose name matches [x]. *)
Definition rows_named (df : dataframe) (x : ident) : list row :=
  filter (name_eq x) df.

(** [out] answers [l] position by position: where exactly one row matches,
    the scalar SUID of that row; where [k > 1] rows match, a list of [k]
    SUIDs, holding exactly the SUIDs of the matching rows. *)
Definition answers (df : dataframe) (l : list ident) (out : list translated)
  : Prop :=
  List.length out = List.length l /\
  forall (i : nat) (x : ident), nth_error l i = Some x ->
    (forall r, rows_named df x = [r] ->
       nth_error out i = Some (One (Suid (suid r)))) /\
    (forall k, (1 < k)%nat -> List.length (rows_named df x) = k ->
       exists suids,
         nth_error out i = Some (Many suids) /\
         List.length suids = k /\
         forall z, In z suids <->
                   exists r, In r df /\ name_eq x r = true /\ suid r = z).

End Utils.


(** ** style_dependencies *)

Module StyleDependencies.

(** What the module does to the outside: calls to the [styles] and
    [commands] collaborators and writes to [sys.stderr], in order.  The
    [cy_log] decorator, which only logs the call, is left out, and default
    arguments are passed explicitly. *)
Inductive call : Type :=
| GetVisualStyleNames (base_url : string)
| CyrestPut (command : string) (body : pyval) (base_url : string)
    (require_json : bool)
| CommandsPost (cmd : string)
| StderrWrite (text : string).

(** The remote application: a state of some type [remote] and the answer of
    each collaborator, which may raise and may change that state. *)
Record cytoscape (remote : Type) : Type := {
  get_visual_style_names :
    string -> remote -> result (list string) * remote;
  cyrest_put :
    string -> pyval -> string -> bool -> remote -> result pyval * remote;
  commands_post :
    string -> remote -> result pyval * remote
}.
Arguments get_visual_style_names {remote} _ _ _.
Arguments cyrest_put {remote} _ _ _ _ _ _.
Arguments commands_post {remote} _ _ _.

(** The remote state together with the calls issued so far. *)
Record world (remote : Type) : Type := {
  app : remote;
  calls : list call
}.
Arguments Build_world {remote} _ _.
Arguments app {remote} _.
Arguments calls {remote} _.

(** Computations that issue calls and may raise. *)
Definition M (remote A : Type) : Type :=
  world remote -> result A * world remote.

Definition ret {remote A} (a : A) : M remote A :=
  fun w => (Ret a, w).

Definition raise {remote A} (e : exn) : M remote A :=
  fun w => (Raise e, w).

Definition mbind {remote A B} (m : M remote A) (k : A -> M remote B)
  : M remote B :=
  fun w =>
    match m w with
    | (Ret a, w') => k a w'
    | (Raise e, w') => (Raise e, w')
    end.

Notation "x <- m ;; k" := (mbind m (fun x => k))
  (at level 61, m at next level, right associativity).

(** Issue [c], answered by [answer] on the remote state. *)
Definition issue {remote A} (c : call) (answer : remote -> result A * remote)
  : M remote A :=
  fun w =>
    let (r, app') := answer (app w) in
    (r, Build_world app' (calls w ++ [c])).

Section Setters.

Context {remote : Type} (cy : cytoscape remote).

Definition styles_get_visual_style_names (base_url : string)
  : M remote (list string) :=
  issue (GetVisualStyleNames base_url) (get_visual_style_names cy base_url).

Definition commands_cyrest_put (command : string) (body : pyval)
  (base_url : string) (require_json : bool) : M remote pyval :=
  issue (CyrestPut command body base_url require_json)
        (cyrest_put cy command body base_url require_json).

Definition commands_commands_post (cmd : string) : M remote pyval :=
  issue (CommandsPost cmd) (commands_post cy cmd).

Definition sys_stderr_write (text : string) : M remote unit :=
  issue (StderrWrite text) (fun r => (Ret tt, r)).

(** [{'visualPropertyDependency': dep, 'enabled': val}] *)
Definition dep_record (item : string * pyval) : pyval :=
  let (dep, val) := item in
  PyDict [("visualPropertyDependency", PyStr dep); ("enabled", val)].

(** [set_style_dependencies(style_name, dependencies, base_url)].  The
    dictionary [dependencies] is given by its items, in insertion order. *)
Definition set_style_dependencies (style_name : string)
  (dependencies : list (string * pyval)) (base_url : string) : M remote pyval :=
  style_names <- styles_get_visual_style_names base_url ;;
  if negb (existsb (String.eqb style_name) style_names)
  then
    let error :=
      "Error in py4cytoscape:set_style_dependencies. No visual style named "
        ++ dquote ++ style_name ++ dquote in
    _ <- sys_stderr_write error ;;
    raise (CyError [Lit error] None)
  else
    let dep_list := PyList (map dep_record dependencies) in
    res <- commands_cyrest_put ("styles/" ++ style_name ++ "/dependencies")
             dep_list base_url false ;;
    res <- commands_commands_post
             ("vizmap apply styles=" ++ dquote ++ style_name ++ dquote) ;;
    ret res.

(** The specific setters; [toggle = 'true' if new_state else 'false']. *)
Definition match_arrow_color_to_edge (new_state : pyval) (style_name : string)
  (base_url : string) : M remote pyval :=
  let toggle := if truthy new_state then "true" else "false" in
  res <- set_style_dependencies style_name
           [("arrowColorMatchesEdge", PyStr toggle)] base_url ;;
  ret res.

Definition lock_node_dimensions (new_state : pyval) (style_name : string)
  (base_url : string) : M remote pyval :=
  let toggle := if truthy new_state then "true" else "false" in
  res <- set_style_dependencies style_name
           [("nodeSizeLocked", PyStr toggle)] base_url ;;
  ret res.

Definition sync_node_custom_graphics_size (new_state : pyval)
  (style_name : string) (base_url : string) : M remote pyval :=
  let toggle := if truthy new_state then "true" else "false" in
  res <- set_style_dependencies style_name
           [("nodeCustomGraphicsSizeSync", PyStr toggle)] base_url ;;
  ret res.

End Setters.

(** The calls that write to the remote application. *)
Definition is_network_write (c : call) : bool :=
  match c with
  | CyrestPut _ _ _ _ => true
  | CommandsPost _ => true
  | GetVisualStyleNames _ => false
  | StderrWrite _ => false
  end.

End StyleDependencies.

(** ** Sample data, after the docstrings' examples *)

Module Sample.
Import Utils StyleDependencies.

Definition node_table : dataframe :=
  [ {| suid := 1022; name := "YDR277C" |};
    {| suid := 1023; name := "YDL194W" |};
    {| suid := 1099; name := "AXD206W" |};
    {| suid := 1100; name := "AXD206W" |} ].

Definition edge_table : dataframe :=
  [ {| suid := 2022; name := "YDR277C (pp) YDL194W" |};
    {| suid := 2023; name := "YDR277C (pp) YDR206W" |};
    {| suid := 2099; name := "YDR277C (pp) AXD206W" |};
    {| suid := 2100; name := "YDR277C (pp) AXD206W" |} ].

(** A table collaborator that serves the two tables above. *)
Definition get_table_columns (table : string) (columns : list string)
  (namespace : string) (net : network) (base_url : string) : result dataframe :=
  if String.eqb table "node" then Ret node_table
  else if String.eqb table "edge" then Ret edge_table
  else Raise (RequestException "no such table").

Definition base_url : string := "http://127.0.0.1:1234/v1".

(** A remote application that knows two styles, records every body put to
    it and answers each command with the current view. *)
Record studio : Type := {
  style_names : list string;
  stored : list (string * pyval)
}.

Definition cy : cytoscape studio := {|
  get_visual_style_names := fun _ r => (Ret (style_names r), r);
  cyrest_put := fun command body _ _ r =>
    (Ret (PyStr EmptyString),
     {| style_names := style_names r; stored := (command, body) :: stored r |});
  commands_post := fun _ r =>
    (Ret (PyDict [("views", PyList [PyInt 275240])]), r)
|}.

Definition w0 : world studio :=
  {| app := {| style_names := ["default"; "galFiltered Style"]; stored := [] |};
     calls := [] |}.

End Sample.

(** ** Further vocabulary for the translators *)

Module Vocabulary.
Import Utils.

(** The value of the two SUID translators on the list [l] once the table
    [df] is in hand, with [error_text] the opening of the error message. *)
Definition named (df : dataframe) (error_text : string) (l : list ident)
  : result (option (list ident)) :=
  if forallb (names_contain (names df)) l
  then Ret (Some l)
  else
    match comprehension (name_of_suid (names df) (index df)) l with
    | Some node_names => Ret (Some (map Name node_names))
    | None => Raise (CyError
                [Lit error_text; Fmt (PyList (map py_of_ident l))] None)
    end.

(** An element of a translated list that stands for SUIDs of the table: one
    SUID of the index, or a list of at least two of them. *)
Definition suids_of_table (df : dataframe) (t : translated) : Prop :=
  match t with
  | One (Suid z) => In z (index df)
  | One (Name _) => False
  | Many suids =>
      (2 <= List.length suids)%nat /\ Forall (fun z => In z (index df)) suids
  end.

(** An element that is a name of the table's name column. *)
Definition name_of_table (df : dataframe) (x : ident) : Prop :=
  match x with
  | Name s => In s (names df)
  | Suid _ => False
  end.

End Vocabulary.

(** ** py4cytoscape_utils: palettes and URLs *)

Module Palettes.

(** The dictionary [PALETTES] of [cyPalette], by its items. *)
Definition PALETTES : list (string * list string) :=
  [ ("set1", ["#E41A1C"; "#377EB8"; "#4DAF4A"; "#984EA3"; "#FF7F00"; "#FFFF33";
              "#A65628"; "#F781BF"; "#999999"]);
    ("set2", ["#66C2A5"; "#FC8D62"; "#8DA0CB"; "#E78AC3"; "#A6D854"; "#FFD92F";
              "#E5C494"; "#B3B3B3"]);
    ("set3", ["#8DD3C7"; "#FFFFB3"; "#BEBADA"; "#FB8072"; "#80B1D3"; "#FDB462";
              "#B3DE69"; "#FCCDE5"; "#D9D9D9"; "#BC80BD"; "#CCEBC5"; "#FFED6F"]);
    ("reds", ["#FFF5F0"; "#FEE0D2"; "#FCBBA1"; "#FC9272"; "#FB6A4A"; "#EF3B2C";
              "#CB181D"; "#A50F15"; "#67000D"]);
    ("rdbu", ["#67001F"; "#B2182B"; "#D6604D"; "#F4A582"; "#FDDBC7"; "#F7F7F7";
              "#D1E5F0"; "#92C5DE"; "#4393C3"; "#2166AC"; "#053061"]);
    ("burd", ["#053061"; "#2166AC"; "#4393C3"; "#92C5DE"; "#D1E5F0"; "#F7F7F7";
              "#FDDBC7"; "#F4A582"; "#D6604D"; "#B2182B"; "#67001F"]) ].

(** [d[key]], with [None] for [KeyError]. *)
Fixpoint getitem {A} (d : list (string * A)) (key : string) : option A :=
  match d with
  | [] => None
  | (k, v) :: d' => if String.eqb k key then Some v else getitem d' key
  end.

(** [cyPalette(name)]: [PALETTES[name]], the list of colours as a Python
    list of strings; [None] stands for the [KeyError] of a missing name. *)
Definition cyPalette (name : string) : option pyval :=
  option_map (fun colors => PyList (map PyStr colors)) (getitem PALETTES name).

End Palettes.

Module Urls.
Open Scope N_scope.

(** [urllib.parse.quote(string)] with its defaults ([safe='/'], UTF-8): the
    string is encoded to bytes, and each byte is kept when it is one of the
    characters never quoted (letters, digits and [_.-~]) or [/], and written
    as [%XX] with upper-case hexadecimal digits otherwise.  This module works
    on the 8-bit strings of the rest of the development, whose characters
    are the code points below 256; [UnicodeUrls] below has the strings of
    all code points. *)
Definition in_range (lo hi c : ascii) : bool :=
  (N_of_ascii lo <=? N_of_ascii c) && (N_of_ascii c <=? N_of_ascii hi).

Definition always_safe (c : ascii) : bool :=
  in_range "A" "Z" c || in_range "a" "z" c || in_range "0" "9" c
  || existsb (Ascii.eqb c) ["_"; "."; "-"; "~"]%char.

Definition is_safe (c : ascii) : bool :=
  always_safe c || Ascii.eqb c "/".

(** The UTF-8 bytes of a code point below 256. *)
Definition utf8 (c : ascii) : list N :=
  let n := N_of_ascii c in
  if n <? 128 then [n] else [192 + n / 64; 128 + n mod 64].

Definition encode (s : string) : list N :=
  flat_map utf8 (list_ascii_of_string s).

Definition hex_digit (n : N) : ascii :=
  if n <? 10 then ascii_of_N (48 + n) else ascii_of_N (55 + n).

(** ['%{:02X}'.format(byte)] *)
Definition percent (byte : N) : string :=
  String "%" (String (hex_digit (byte / 16))
                (String (hex_digit (byte mod 16)) EmptyString)).

Definition quoter (byte : N) : string :=
  if (byte <? 128) && is_safe (ascii_of_N byte)
  then String (ascii_of_N byte) EmptyString
  else percent byte.

(** [''.join([quoter(byte) for byte in bs])] *)
Fixpoint quote_from_bytes (bs : list N) : string :=
  match bs with
  | [] => EmptyString
  | b :: bs' => (quoter b ++ quote_from_bytes bs')%string
  end.

Definition quote (s : string) : string := quote_from_bytes (encode s).

(** [build_url(base_url, command)]; [command=None] is [None]. *)
Definition build_url (base_url : string) (command : option string) : string :=
  match command with
  | Some command => (base_url ++ "/" ++ quote command)%string
  | None => base_url
  end.

End Urls.

(** ** py4cytoscape_utils: URLs over strings of any code points *)

Module UnicodeUrls.
Import Urls.
Open Scope N_scope.

(** A Python [str] as the list of its code points.  A code point is below
    0x110000; the values from 0xD800 to 0xDFFF are the surrogates, which a
    [str] can hold but UTF-8 cannot encode. *)
Definition text : Type := list N.

(** The code points of an 8-bit string. *)
Definition codes (s : string) : text :=
  map N_of_ascii (list_ascii_of_string s).

(** [chr(c).encode('utf-8', 'strict')]: one to four bytes, [None] for the
    [UnicodeEncodeError] of a surrogate.  Values from 0x110000 up are no code
    points, no string holds one, and they get no encoding. *)
Definition utf8 (c : N) : option (list N) :=
  if c <? 128 then Some [c]
  else if c <? 2048 then Some [192 + c / 64; 128 + c mod 64]
  else if c <? 65536 then
    if (55296 <=? c) && (c <=? 57343) then None
    else Some [224 + c / 4096; 128 + (c / 64) mod 64; 128 + c mod 64]
  else if c <? 1114112 then
    Some [240 + c / 262144; 128 + (c / 4096) mod 64;
          128 + (c / 64) mod 64; 128 + c mod 64]
  else None.

(** [string.encode('utf-8', 'strict')] *)
Fixpoint encode (s : text) : option (list N) :=
  match s with
  | [] => Some []
  | c :: s' =>
      match utf8 c, encode s' with
      | Some bs, Some bs' => Some (bs ++ bs')%list
      | _, _ => None
      end
  end.

(** [''.join([quoter(byte) for byte in bs])], with the [quoter] of [Urls]. *)
Definition quote_from_bytes (bs : list N) : text :=
  flat_map (fun byte => codes (quoter byte)) bs.

(** [urllib.parse.quote(string)]; [None] is the [UnicodeEncodeError]. *)
Definition quote (s : text) : option text :=
  option_map quote_from_bytes (encode s).

(** [build_url(base_url, command)]; the slash is code point 47. *)
Definition build_url (base_url : text) (command : option text) : option text :=
  match command with
  | Some command =>
      option_map (fun quoted => (base_url ++ [47] ++ quoted)%list) (quote command)
  | None => Some base_url
  end.

(** *** Vocabulary of the statements *)

(** The characters a quoted command is made of: the ASCII letters and
    digits, [_ . - ~ /], and the percent sign (code point 37). *)
Definition is_url_character (x : N) : bool :=
  (x <? 128) && (is_safe (ascii_of_N x) || (x =? 37)).

(** Readers of quoted text and of UTF-8, to state that quoting loses
    nothing: the bytes a quoted text stands for, and the code points a
    sequence of bytes stands for. *)
Definition hex_value (c : N) : N :=
  if c <? 58 then c - 48 else c - 55.

Fixpoint unquote (q : text) : list N :=
  match q with
  | [] => []
  | c :: rest =>
      if c =? 37 then
        match rest with
        | h :: l :: rest' => (16 * hex_value h + hex_value l) :: unquote rest'
        | _ => []
        end
      else c :: unquote rest
  end.

(** What [quoter] writes for a byte spells it: it is the byte itself, which
    is not the percent sign, or the percent sign and two digits that give
    the byte back. *)
Definition spelled (b : N) : bool :=
  match codes (quoter b) with
  | [c] => (c =? b) && negb (c =? 37)
  | [p; h; l] => (p =? 37) && (16 * hex_value h + hex_value l =? b)
  | _ => false
  end.

Fixpoint decode (bs : list N) : text :=
  match bs with
  | [] => []
  | b0 :: r0 =>
      if b0 <? 128 then b0 :: decode r0
      else if b0 <? 224 then
        match r0 with
        | b1 :: r1 => ((b0 - 192) * 64 + (b1 - 128)) :: decode r1
        | _ => []
        end
      else if b0 <? 240 then
        match r0 with
        | b1 :: b2 :: r2 =>
            ((b0 - 224) * 4096 + (b1 - 128) * 64 + (b2 - 128)) :: decode r2
        | _ => []
        end
      else
        match r0 with
        | b1 :: b2 :: b3 :: r3 =>
            ((b0 - 240) * 262144 + (b1 - 128) * 4096 + (b2 - 128) * 64
             + (b3 - 128)) :: decode r3
        | _ => []
        end
  end.

End UnicodeUrls.

(** ** style_dependencies: reading the dependencies *)

Module StyleDependenciesGet.
Import StyleDependencies.

(** The calls of [get_style_dependencies]: those the setters issue too, and
    the GET request. *)
Inductive call : Type :=
| Issued (c : StyleDependencies.call)
| CyrestGet (command : string) (base_url : string).

(** One record of the response, as the remote application sends it:
    [{'visualPropertyDependency': ..., 'enabled': ...}]. *)
Record dependency : Type := {
  visualPropertyDependency : string;
  enabled : pyval
}.

(** [d[key] = value] on a dictionary given by its items: the value of an
    existing key is replaced where it stands, a new key goes to the end. *)
Fixpoint setitem (d : list (string * pyval)) (key : string) (value : pyval)
  : list (string * pyval) :=
  match d with
  | [] => [(key, value)]
  | (k, v) :: d' =>
      if String.eqb k key then (k, value) :: d'
      else (k, v) :: setitem d' key value
  end.

(** [{dep['visualPropertyDependency']: dep['enabled'] for dep in res}] *)
Definition dep_dict (res : list dependency) : list (string * pyval) :=
  fold_left
    (fun d dep => setitem d (visualPropertyDependency dep) (enabled dep))
    res [].

Record world (remote : Type) : Type := {
  app : remote;
  calls : list call
}.
Arguments Build_world {remote} _ _.
Arguments app {remote} _.
Arguments calls {remote} _.

Section Getter.

Context {remote : Type} (cy : cytoscape remote).

(** The collaborator [commands.cyrest_get(command, base_url=...)]. *)
Variable cyrest_get :
  string -> string -> remote -> result (list dependency) * remote.

(** [get_style_dependencies(style_name, base_url)], returning the items of
    the dictionary. *)
Definition get_style_dependencies (style_name : string) (base_url : string)
  (w : world remote) : result (list (string * pyval)) * world remote :=
  let (style_names, app1) := get_visual_style_names cy base_url (app w) in
  let calls1 := (calls w ++ [Issued (GetVisualStyleNames base_url)])%list in
  match style_names with
  | Raise e => (Raise e, Build_world app1 calls1)
  | Ret style_names =>
      if negb (existsb (String.eqb style_name) style_names)
      then
        let error :=
          "Error in py4cytoscape:get_style_dependencies. No visual style named "
            ++ dquote ++ style_name ++ dquote in
        (Raise (CyError [Lit error] None),
         Build_world app1 (calls1 ++ [Issued (StderrWrite error)])%list)
      else
        let command := "styles/" ++ style_name ++ "/dependencies" in
        let (res, app2) := cyrest_get command base_url app1 in
        let calls2 := (calls1 ++ [CyrestGet command base_url])%list in
        match res with
        | Raise e => (Raise e, Build_world app2 calls2)
        | Ret res => (Ret (dep_dict res), Build_world app2 calls2)
        end
  end.

End Getter.

End StyleDependenciesGet.

(** ** More sample data *)

Module Cases.
Import StyleDependencies.

(** A remote application that lists its styles but refuses every PUT. *)
Definition refusing : cytoscape Sample.studio := {|
  get_visual_style_names := fun _ r => (Ret (Sample.style_names r), r);
  cyrest_put := fun _ _ _ _ r => (Raise (RequestException "500 Server Error"), r);
  commands_post := fun _ r =>
    (Ret (PyDict [("views", PyList [PyInt 275240])]), r)
|}.

(** The answer of the sample application to a GET of a style's
    dependencies. *)
Definition dependencies : list StyleDependenciesGet.dependency :=
  [ {| StyleDependenciesGet.visualPropertyDependency := "arrowColorMatchesEdge";
       StyleDependenciesGet.enabled := PyBool false |};
    {| StyleDependenciesGet.visualPropertyDependency := "nodeCustomGraphicsSizeSync";
       StyleDependenciesGet.enabled := PyBool true |};
    {| StyleDependenciesGet.visualPropertyDependency := "nodeSizeLocked";
       StyleDependenciesGet.enabled := PyBool true |} ].

Definition cyrest_get (command base_url : string) (r : Sample.studio)
  : result (list StyleDependenciesGet.dependency) * Sample.studio :=
  (Ret dependencies, r).

Definition w0 : StyleDependenciesGet.world Sample.studio :=
  {| StyleDependenciesGet.app := StyleDependencies.app Sample.w0;
     StyleDependenciesGet.calls := [] |}.

End Cases.

(** ** py4cytoscape_utils: supported versions *)

Module Versions.

(** The record [cytoscape_system.cytoscape_version_info] returns, with its
    two strings. *)
Record version_info : Type := {
  apiVersion : string;
  cytoscapeVersion : string
}.

(** [[0-9]] *)
Definition is_digit (c : ascii) : bool :=
  (48 <=? N_of_ascii c)%N && (N_of_ascii c <=? 57)%N.

(** The longest run of digits at the front of [s], and what follows it: what
    a greedy [[0-9]+] takes when the pattern goes on with a non-digit. *)
Fixpoint digits (s : string) : string * string :=
  match s with
  | String c s' =>
      if is_digit c
      then let (d, rest) := digits s' in (String c d, rest)
      else (EmptyString, s)
  | EmptyString => (EmptyString, EmptyString)
  end.

Definition newline : ascii := ascii_of_nat 10.

(** [$]: the end of the string, or the newline that ends it. *)
Definition at_end (s : string) : bool :=
  match s with
  | EmptyString => true
  | String c EmptyString => Ascii.eqb c newline
  | String _ _ => false
  end.

(** [.*$]: characters other than newline up to [$]. *)
Fixpoint rest_of_line (s : string) : bool :=
  match s with
  | EmptyString => true
  | String c s' =>
      if Ascii.eqb c newline
      then match s' with EmptyString => true | String _ _ => false end
      else rest_of_line s'
  end.

(** [re.match('v([0-9]+)$', s)]: group 1, or [None]. *)
Definition match_api (s : string) : option string :=
  match s with
  | String c r =>
      if Ascii.eqb c "v" then
        let (d, rest) := digits r in
        match d with
        | EmptyString => None
        | String _ _ => if at_end rest then Some d else None
        end
      else None
  | EmptyString => None
  end.

(** [re.match('([0-9]+\.[0-9]+)\..*$', s)]: group 1 as its two runs of
    digits, or [None]. *)
Definition match_cytoscape (s : string) : option (string * string) :=
  let (major, r1) := digits s in
  match major, r1 with
  | String _ _, String dot1 r2 =>
      if Ascii.eqb dot1 "." then
        let (minor, r3) := digits r2 in
        match minor, r3 with
        | String _ _, String dot2 r4 =>
            if Ascii.eqb dot2 "." && rest_of_line r4
            then Some (major, minor)
            else None
        | _, _ => None
        end
      else None
  | _, _ => None
  end.

(** [int(d)] for a run of digits. *)
Definition int_of_digits (d : string) : Z :=
  fold_left (fun n c => 10 * n + (Z.of_N (N_of_ascii c) - 48))
    (list_ascii_of_string d) 0.

(** [float(major + '.' + minor)]: the binary64 nearest to the decimal, which
    is the correctly rounded quotient of the integer written by all the
    digits and the power of ten of the number of digits after the point. *)
Definition float_of_decimal (major minor : string) : float :=
  let n := int_of_digits (major ++ minor) in
  let p := Z.pow 10 (Z.of_nat (String.length minor)) in
  match n with
  | Z.pos m =>
      SF2Prim (SFdiv FloatOps.prec FloatOps.emax
                 (S754_finite false m 0) (S754_finite false (Z.to_pos p) 0))
  | _ => PrimFloat.zero
  end.

Section Versions.

(** The collaborator [cytoscape_system.cytoscape_version_info(base_url)]. *)
Variable cytoscape_version_info : string -> result version_info.

(** [verify_supported_versions(cyrest, cytoscape, base_url)].  A failed
    [re.match] is [None], whose [.group] raises [AttributeError]; the two
    [%]-formatted texts are kept as their segments. *)
Definition verify_supported_versions (cyrest : Z) (cytoscape : float)
  (base_url : string) : result unit :=
  bind (cytoscape_version_info base_url) (fun v =>
  let v_api_str := apiVersion v in
  let v_cy_str := cytoscapeVersion v in
  match match_api v_api_str with
  | None => Raise AttributeError
  | Some api_digits =>
      let v_api_num := int_of_digits api_digits in
      match match_cytoscape v_cy_str with
      | None => Raise AttributeError
      | Some (major, minor) =>
          let v_cy_num := float_of_decimal major minor in
          let nogo : option message := None in
          let nogo :=
            if cyrest >? v_api_num
            then Some [Lit "CyREST API version "; Fmt (PyInt cyrest);
                       Lit " or greater is required. You are currently working with version ";
                       Fmt (PyInt v_api_num); Lit "."]
            else nogo in
          let nogo :=
            if PrimFloat.ltb v_cy_num cytoscape
            then Some [Lit "Cytoscape version "; Fmt (PyFloat cytoscape);
                       Lit " or greater is required. You are currently working with version ";
                       Fmt (PyFloat v_cy_num); Lit "."]
            else nogo in
          match nogo with
          | Some text =>
              Raise (CyError
                       (Lit "Function not run due to unsupported version: " :: text)
                       None)
          | None => Ret tt
          end
      end
  end).

End Versions.

End Versions.

Module VersionSamples.
Import Versions.

(** The version collaborator of an application at the given versions. *)
Definition running (api cy : string) (base_url : string) : result version_info :=
  Ret {| apiVersion := api; cytoscapeVersion := cy |}.

(** The default minimum of [verify_supported_versions], [cytoscape=3.6]:
    the binary64 nearest to 3.6. *)
Definition minimum_3_6 : float := float_of_decimal "3" "6".

End VersionSamples.

(** ** Properties of the identifier translators *)

Import Utils.

Section TranslatorFacts.

Variable get_table_columns :
  string -> list string -> string -> network -> string -> result dataframe.
Variables (net : network) (base_url : string) (df : dataframe).

Lemma not_false_in {A} (f : A -> bool) (l : list A) :
  negb (existsb (Bool.eqb false) (map f l)) = forallb f l.
Proof.
  induction l as [|x l IH]; simpl; [reflexivity|].
  rewrite negb_orb, IH. destruct (f x); reflexivity.
Qed.

Lemma true_in_empty (ls : list (list Z)) :
  existsb (Bool.eqb true)
    (map (fun x => if Nat.eqb (List.length x) 0 then true else false) ls)
  = existsb (fun x => Nat.eqb (List.length x) 0) ls.
Proof.
  induction ls as [|x ls IH]; simpl; [reflexivity|].
  rewrite IH. destruct (Nat.eqb (List.length x) 0); reflexivity.
Qed.

Lemma node_name_to_node_suid_list (l : list ident) :
  get_table_columns "node" ["name"] "default" net base_url = Ret df ->
  node_name_to_node_suid get_table_columns (ArgList l) net base_url
  = resolved df "Invalid name in node name list: " l.
Proof.
  intros Hdf. unfold node_name_to_node_suid, resolved.
  rewrite Hdf. cbn [bind iterate].
  rewrite not_false_in, true_in_empty. reflexivity.
Qed.

Lemma edge_name_to_edge_suid_list (l : list ident) :
  get_table_columns "edge" ["name"] "default" net base_url = Ret df ->
  edge_name_to_edge_suid get_table_columns (ArgList l) net base_url
  = resolved df "Invalid edge name in list: " l.
Proof.
  intros Hdf. unfold edge_name_to_edge_suid, resolved.
  rewrite Hdf. cbn [bind iterate].
  rewrite not_false_in, true_in_empty. reflexivity.
Qed.

End TranslatorFacts.

Section ResolvedFacts.

Variable df : dataframe.

Lemma suids_named_length (x : ident) :
  List.length (suids_named df x) = List.length (rows_named df x).
Proof. unfold suids_named, index, rows_named. apply length_map. Qed.

Lemma suids_named_In (x : ident) (z : Z) :
  In z (suids_named df x) <->
  exists r, In r df /\ name_eq x r = true /\ suid r = z.
Proof.
  unfold suids_named, index. rewrite in_map_iff. split.
  - intros [r [Hz Hr]]. apply filter_In in Hr. destruct Hr as [Hin Heq].
    exists r. auto.
  - intros [r [Hin [Heq Hz]]]. exists r. split; [exact Hz|].
    apply filter_In. auto.
Qed.

(** A SUID never matches a cell of the name column. *)
Lemma suid_matches_no_name (z : Z) : rows_named df (Suid z) = [].
Proof.
  unfold rows_named. induction df as [|r d IH]; simpl; [reflexivity|exact IH].
Qed.

(** A name is never a member of the index. *)
Lemma name_not_in_index (s : string) :
  index_contains (index df) (Name s) = false.
Proof. reflexivity. Qed.

Lemma resolved_fast (error_text : string) (l : list ident) :
  Forall (fun x => index_contains (index df) x = true) l ->
  resolved df error_text l = Ret (Some (map One l)).
Proof.
  intros Hall. unfold resolved.
  replace (forallb (index_contains (index df)) l) with true; [reflexivity|].
  symmetry. apply forallb_forall. apply Forall_forall. exact Hall.
Qed.

Lemma resolved_unknown (error_text : string) (l : list ident) :
  forallb (index_contains (index df)) l = false ->
  Exists (fun x => rows_named df x = []) l ->
  resolved df error_text l
  = Raise (CyError [Lit error_text; Fmt (PyList (map py_of_ident l))] None).
Proof.
  intros Hslow Hex. unfold resolved. rewrite Hslow.
  replace (existsb (fun x => Nat.eqb (List.length x) 0) (map (suids_named df) l))
    with true; [reflexivity|].
  symmetry. apply existsb_exists.
  apply Exists_exists in Hex. destruct Hex as [x [Hin Hnone]].
  exists (suids_named df x). split.
  - apply in_map. exact Hin.
  - rewrite suids_named_length, Hnone. reflexivity.
Qed.

Lemma resolved_translates (error_text : string) (l : list ident) :
  forallb (index_contains (index df)) l = false ->
  Forall (fun x => rows_named df x <> []) l ->
  resolved df error_text l
  = Ret (Some (map scalar_if_single (map (suids_named df) l))).
Proof.
  intros Hslow Hall. unfold resolved. rewrite Hslow.
  replace (existsb (fun x => Nat.eqb (List.length x) 0) (map (suids_named df) l))
    with false; [reflexivity|].
  symmetry. apply not_true_is_false. intros Hex.
  apply existsb_exists in Hex. destruct Hex as [ss [Hin Hlen]].
  apply in_map_iff in Hin. destruct Hin as [x [Hss Hin]]. subst ss.
  rewrite Forall_forall in Hall. apply (Hall x Hin).
  rewrite suids_named_length in Hlen.
  destruct (rows_named df x); [reflexivity|discriminate].
Qed.

Lemma translated_answers (l : list ident) :
  answers df l (map scalar_if_single (map (suids_named df) l)).
Proof.
  split.
  - rewrite !length_map. reflexivity.
  - intros i x Hx. rewrite !nth_error_map, Hx. cbn [option_map]. split.
    + intros r Hr. unfold suids_named, index. fold (rows_named df x).
      rewrite Hr. reflexivity.
    + intros k Hk Hlen. exists (suids_named df x). split; [|split].
      * pose proof (suids_named_length x) as Hl. rewrite Hlen in Hl.
        destruct (suids_named df x) as [|a [|b t]]; simpl in Hl;
          try lia; reflexivity.
      * rewrite suids_named_length. exact Hlen.
      * apply suids_named_In.
Qed.

End ResolvedFacts.

(** Two tactics for the sample collaborators. *)
Ltac sample_table := reflexivity.
Ltac sample_rows := vm_compute; repeat constructor; discriminate.

(** C1.  A batch whose every element is already in the table's SUID index is
    returned as it is, by [node_name_to_node_suid] and by
    [edge_name_to_edge_suid]; a string given alone is first made the
    one-element list, so it is treated exactly as that list is. *)
Theorem name_to_suid_identity_when_all_present
  (get_table_columns :
     string -> list string -> string -> network -> string -> result dataframe)
  (net : network) (base_url : string) (df : dataframe) (l : list ident) :
  Forall (fun x => index_contains (index df) x = true) l ->
  (get_table_columns "node" ["name"] "default" net base_url = Ret df ->
   node_name_to_node_suid get_table_columns (ArgList l) net base_url
   = Ret (Some (map One l))) /\
  (get_table_columns "edge" ["name"] "default" net base_url = Ret df ->
   edge_name_to_edge_suid get_table_columns (ArgList l) net base_url
   = Ret (Some (map One l))) /\
  (forall s : string,
     node_name_to_node_suid get_table_columns (ArgStr s) net base_url
     = node_name_to_node_suid get_table_columns (ArgList [Name s]) net base_url /\
     edge_name_to_edge_suid get_table_columns (ArgStr s) net base_url
     = edge_name_to_edge_suid get_table_columns (ArgList [Name s]) net base_url).
Proof.
  intros Hall. split; [|split].
  - intros Hdf. rewrite (node_name_to_node_suid_list _ _ _ df) by exact Hdf.
    apply resolved_fast. exact Hall.
  - intros Hdf. rewrite (edge_name_to_edge_suid_list _ _ _ df) by exact Hdf.
    apply resolved_fast. exact Hall.
  - intros s. split; reflexivity.
Qed.

Lemma name_to_suid_identity_when_all_present_witness :
  node_name_to_node_suid Sample.get_table_columns
    (ArgList [Suid 1023; Suid 1022; Suid 1023]) None Sample.base_url
  = Ret (Some [One (Suid 1023); One (Suid 1022); One (Suid 1023)]).
Proof.
  apply (name_to_suid_identity_when_all_present Sample.get_table_columns None
           Sample.base_url Sample.node_table [Suid 1023; Suid 1022; Suid 1023]).
  - repeat constructor.
  - sample_table.
Defined.

(** C2.  On the translating path (some element is not in the SUID index),
    when every element matches at least one row by name, the translator
    returns a list that answers the batch position by position: the scalar
    SUID where exactly one row matches, and where a name is bound to
    [k > 1] SUIDs a list of exactly [k] elements holding all of them. *)
Theorem name_to_suid_scalar_or_all_candidates
  (get_table_columns :
     string -> list string -> string -> network -> string -> result dataframe)
  (net : network) (base_url : string) (df : dataframe) (l : list ident) :
  forallb (index_contains (index df)) l = false ->
  Forall (fun x => rows_named df x <> []) l ->
  (get_table_columns "node" ["name"] "default" net base_url = Ret df ->
   exists out,
     node_name_to_node_suid get_table_columns (ArgList l) net base_url
     = Ret (Some out) /\ answers df l out) /\
  (get_table_columns "edge" ["name"] "default" net base_url = Ret df ->
   exists out,
     edge_name_to_edge_suid get_table_columns (ArgList l) net base_url
     = Ret (Some out) /\ answers df l out).
Proof.
  intros Hslow Hall.
  split; intros Hdf;
    exists (map scalar_if_single (map (suids_named df) l));
    (split; [|apply translated_answers]).
  - rewrite (node_name_to_node_suid_list _ _ _ df) by exact Hdf.
    apply resolved_translates; assumption.
  - rewrite (edge_name_to_edge_suid_list _ _ _ df) by exact Hdf.
    apply resolved_translates; assumption.
Qed.

Lemma name_to_suid_scalar_or_all_candidates_witness :
  exists out,
    node_name_to_node_suid Sample.get_table_columns
      (ArgList [Name "YDR277C"; Name "AXD206W"]) None Sample.base_url
    = Ret (Some out) /\
    answers Sample.node_table [Name "YDR277C"; Name "AXD206W"] out.
Proof.
  apply (name_to_suid_scalar_or_all_candidates Sample.get_table_columns None
           Sample.base_url Sample.node_table [Name "YDR277C"; Name "AXD206W"]).
  - reflexivity.
  - sample_rows.
  - sample_table.
Defined.

(** C3.  On the translating path, when some element matches no row by name,
    the translator raises the error whose message holds the whole batch, and
    so returns nothing, not even the elements it could translate. *)
Theorem name_to_suid_unknown_name_raises
  (get_table_columns :
     string -> list string -> string -> network -> string -> result dataframe)
  (net : network) (base_url : string) (df : dataframe) (l : list ident) :
  forallb (index_contains (index df)) l = false ->
  Exists (fun x => rows_named df x = []) l ->
  (get_table_columns "node" ["name"] "default" net base_url = Ret df ->
   node_name_to_node_suid get_table_columns (ArgList l) net base_url
   = Raise (CyError [Lit "Invalid name in node name list: ";
                     Fmt (PyList (map py_of_ident l))] None) /\
   forall out,
     node_name_to_node_suid get_table_columns (ArgList l) net base_url
     <> Ret out) /\
  (get_table_columns "edge" ["name"] "default" net base_url = Ret df ->
   edge_name_to_edge_suid get_table_columns (ArgList l) net base_url
   = Raise (CyError [Lit "Invalid edge name in list: ";
                     Fmt (PyList (map py_of_ident l))] None) /\
   forall out,
     edge_name_to_edge_suid get_table_columns (ArgList l) net base_url
     <> Ret out).
Proof.
  intros Hslow Hex. split; intros Hdf.
  - assert (E : node_name_to_node_suid get_table_columns (ArgList l) net base_url
                = Raise (CyError [Lit "Invalid name in node name list: ";
                                  Fmt (PyList (map py_of_ident l))] None)).
    { rewrite (node_name_to_node_suid_list _ _ _ df) by exact Hdf.
      apply resolved_unknown; assumption. }
    split; [exact E|]. intros out. rewrite E. discriminate.
  - assert (E : edge_name_to_edge_suid get_table_columns (ArgList l) net base_url
                = Raise (CyError [Lit "Invalid edge name in list: ";
                                  Fmt (PyList (map py_of_ident l))] None)).
    { rewrite (edge_name_to_edge_suid_list _ _ _ df) by exact Hdf.
      apply resolved_unknown; assumption. }
    split; [exact E|]. intros out. rewrite E. discriminate.
Qed.

Lemma name_to_suid_unknown_name_raises_witness :
  node_name_to_node_suid Sample.get_table_columns
    (ArgList [Name "YDR277C"; Name "bogus"]) None Sample.base_url
  = Raise (CyError [Lit "Invalid name in node name list: ";
                    Fmt (PyList [PyStr "YDR277C"; PyStr "bogus"])] None).
Proof.
  apply (name_to_suid_unknown_name_raises Sample.get_table_columns None
           Sample.base_url Sample.node_table [Name "YDR277C"; Name "bogus"]).
  - reflexivity.
  - apply Exists_cons_tl. apply Exists_cons_hd. reflexivity.
  - sample_table.
Defined.

(** C4.  In a batch where some element needs translation (it is not in the
    SUID index), another element that is a valid SUID (it is in the index)
    and does not occur in the name column makes the call fail with the
    unknown-identifier error: it is not passed through. *)
Theorem name_to_suid_mixed_batch_raises
  (get_table_columns :
     string -> list string -> string -> network -> string -> result dataframe)
  (net : network) (base_url : string) (df : dataframe) (l : list ident)
  (y : ident) (z : Z) :
  In y l -> index_contains (index df) y = false ->
  In (Suid z) l -> index_contains (index df) (Suid z) = true ->
  rows_named df (Suid z) = [] ->
  (get_table_columns "node" ["name"] "default" net base_url = Ret df ->
   node_name_to_node_suid get_table_columns (ArgList l) net base_url
   = Raise (CyError [Lit "Invalid name in node name list: ";
                     Fmt (PyList (map py_of_ident l))] None)) /\
  (get_table_columns "edge" ["name"] "default" net base_url = Ret df ->
   edge_name_to_edge_suid get_table_columns (ArgList l) net base_url
   = Raise (CyError [Lit "Invalid edge name in list: ";
                     Fmt (PyList (map py_of_ident l))] None)).
Proof.
  intros Hy Hny Hz Hvalid Hnone.
  assert (Hslow : forallb (index_contains (index df)) l = false).
  { apply not_true_is_false. intros Hall.
    rewrite forallb_forall in Hall. rewrite (Hall y Hy) in Hny. discriminate. }
  assert (Hex : Exists (fun x => rows_named df x = []) l).
  { apply Exists_exists. exists (Suid z). split; assumption. }
  split; intros Hdf.
  - rewrite (node_name_to_node_suid_list _ _ _ df) by exact Hdf.
    apply resolved_unknown; assumption.
  - rewrite (edge_name_to_edge_suid_list _ _ _ df) by exact Hdf.
    apply resolved_unknown; assumption.
Qed.

Lemma name_to_suid_mixed_batch_raises_witness :
  node_name_to_node_suid Sample.get_table_columns
    (ArgList [Name "YDR277C"; Suid 1023]) None Sample.base_url
  = Raise (CyError [Lit "Invalid name in node name list: ";
                    Fmt (PyList [PyStr "YDR277C"; PyInt 1023])] None).
Proof.
  apply (name_to_suid_mixed_batch_raises Sample.get_table_columns None
           Sample.base_url Sample.node_table [Name "YDR277C"; Suid 1023]
           (Name "YDR277C") 1023).
  - simpl. left. reflexivity.
  - reflexivity.
  - simpl. right. left. reflexivity.
  - reflexivity.
  - reflexivity.
  - sample_table.
Defined.

Section ReverseFacts.

Lemma list_index_first (d : dataframe) (r : row) :
  NoDup (index d) -> In r d ->
  name_of_suid (names d) (index d) (Suid (suid r)) = Some (name r).
Proof.
  induction d as [|r0 d IH]; intros Hnd Hin; [contradiction|].
  simpl in Hnd. inversion Hnd as [|a t Hfresh Hrest]; subst.
  cbn [name_of_suid names index map list_index].
  destruct (Z.eqb_spec (suid r0) (suid r)) as [Heq|Hneq].
  - destruct Hin as [Hr|Hr]; [subst r0; reflexivity|].
    exfalso. apply Hfresh. rewrite Heq. unfold index. apply in_map. exact Hr.
  - destruct Hin as [Hr|Hr]; [subst r0; contradiction|].
    specialize (IH Hrest Hr). cbn [name_of_suid] in IH.
    fold (index d). fold (names d).
    destruct (list_index (index d) (suid r)) as [i|]; [|discriminate].
    exact IH.
Qed.

Lemma rows_named_single (d : dataframe) (n : string) (r : row) :
  rows_named d (Name n) = [r] -> In r d /\ name r = n.
Proof.
  intros Hrows.
  assert (Hin : In r (rows_named d (Name n))) by (rewrite Hrows; left; reflexivity).
  unfold rows_named in Hin. apply filter_In in Hin. destruct Hin as [Hin Heq].
  split; [exact Hin|]. apply String.eqb_eq. exact Heq.
Qed.

End ReverseFacts.

(** C5.  A name bound to exactly one SUID round-trips:
    [node_name_to_node_suid] turns it into that SUID and
    [node_suid_to_node_name] turns the SUID back into the name.  The table is
    one of the data model, with no SUID on two rows.  (That the name is not in
    the SUID index holds for every name: the index holds integers.) *)
Theorem node_name_suid_round_trip
  (get_table_columns :
     string -> list string -> string -> network -> string -> result dataframe)
  (net : network) (base_url : string) (df : dataframe) (n : string) (r : row) :
  get_table_columns "node" ["name"] "default" net base_url = Ret df ->
  NoDup (index df) ->
  rows_named df (Name n) = [r] ->
  index_contains (index df) (Name n) = false ->
  node_name_to_node_suid get_table_columns (ArgList [Name n]) net base_url
  = Ret (Some [One (Suid (suid r))]) /\
  node_suid_to_node_name get_table_columns (ArgList [Suid (suid r)]) net base_url
  = Ret (Some [Name n]).
Proof.
  intros Hdf Hnd Hrows _. split.
  - rewrite (node_name_to_node_suid_list _ _ _ df) by exact Hdf.
    rewrite resolved_translates.
    + cbn [map]. unfold suids_named. fold (rows_named df (Name n)).
      rewrite Hrows. reflexivity.
    + reflexivity.
    + constructor; [|constructor]. rewrite Hrows. discriminate.
  - destruct (rows_named_single df n r Hrows) as [Hin Hname].
    unfold node_suid_to_node_name. rewrite Hdf.
    cbn [bind iterate map names_contain existsb Bool.eqb orb negb comprehension].
    rewrite (list_index_first df r Hnd Hin). cbn [option_map map].
    rewrite Hname. reflexivity.
Qed.

Lemma node_name_suid_round_trip_witness :
  node_name_to_node_suid Sample.get_table_columns
    (ArgList [Name "YDL194W"]) None Sample.base_url
  = Ret (Some [One (Suid 1023)]) /\
  node_suid_to_node_name Sample.get_table_columns
    (ArgList [Suid 1023]) None Sample.base_url
  = Ret (Some [Name "YDL194W"]).
Proof.
  apply (node_name_suid_round_trip Sample.get_table_columns None
           Sample.base_url Sample.node_table "YDL194W"
           {| suid := 1023; name := "YDL194W" |}).
  - sample_table.
  - vm_compute. repeat constructor; simpl; intuition discriminate.
  - reflexivity.
  - reflexivity.
Defined.

(** ** Properties of the validators *)

Section ValidatorFacts.

Context {A : Type} (body : A -> result unit).

Lemma for_each_ok (l : list A) :
  for_each body l = Ret tt <-> Forall (fun x => body x = Ret tt) l.
Proof.
  induction l as [|x l IH]; simpl.
  - split; [constructor|reflexivity].
  - split.
    + intros H. destruct (body x) as [[]|e] eqn:Hx; simpl in H; [|discriminate].
      constructor; [exact Hx|]. apply IH. exact H.
    + intros H. inversion H as [|a t Hx Hl]; subst.
      rewrite Hx. simpl. apply IH. exact Hl.
Qed.

Lemma for_each_first_offender (l1 l2 : list A) (x : A) (e : exn) :
  Forall (fun y => body y = Ret tt) l1 -> body x = Raise e ->
  for_each body (l1 ++ x :: l2) = Raise e.
Proof.
  intros Hl1 Hx. induction Hl1 as [|y l1 Hy _ IH]; simpl.
  - rewrite Hx. reflexivity.
  - rewrite Hy. simpl. exact IH.
Qed.

End ValidatorFacts.

Lemma check_hex_color_ok (caller : string) (color : pyval) :
  check_hex_color caller color = Ret tt <->
  exists s, color = PyStr s /\ String.prefix "#" s = true /\
            String.length s = 7%nat.
Proof.
  unfold check_hex_color. split.
  - destruct color; try discriminate.
    destruct (String.prefix "#" s) eqn:Hp;
      destruct (Nat.eqb_spec (String.length s) 7); simpl; try discriminate.
    intros _. exists s. auto.
  - intros [s [-> [Hp Hl]]]. rewrite Hp, Hl. reflexivity.
Qed.

Lemma check_opacity_ok (caller : string) (opacity : pyval) :
  check_opacity caller opacity = Ret tt <-> opacity_rejected opacity = false.
Proof.
  unfold check_opacity. destruct (opacity_rejected opacity);
    split; intros H; try reflexivity; discriminate.
Qed.

Lemma check_dimension_ok (caller dimension : string) (size : pyval) :
  check_dimension caller dimension size = Ret tt <->
  dimension_rejected size = false.
Proof.
  unfold check_dimension. destruct (dimension_rejected size);
    split; intros H; try reflexivity; discriminate.
Qed.

Lemma Forall_iff {A} (P Q : A -> Prop) (l : list A) :
  (forall x, P x <-> Q x) -> Forall P l <-> Forall Q l.
Proof.
  intros H. split; intros F; eapply Forall_impl; try exact F;
    intros x; apply H.
Qed.

(** C6, as the code has it.  The hex colour, opacity and dimension validators
    do nothing on [None], treat a scalar as the one-element sequence, and
    accept a sequence exactly when every element passes on its own, the
    first offender deciding the error.  [verify_slot] tests its argument
    itself: [None] and every sequence raise the slot error, and an integer
    passes exactly in 1..9. *)
Theorem list_validators_elementwise_null_noop (caller dimension : string) :
  (verify_hex_colors caller PyNone = Ret tt /\
   verify_opacities caller PyNone = Ret tt /\
   verify_dimensions caller dimension PyNone = Ret tt) /\
  (forall v, v <> PyNone -> is_list v = false ->
     verify_hex_colors caller v = verify_hex_colors caller (PyList [v]) /\
     verify_opacities caller v = verify_opacities caller (PyList [v]) /\
     verify_dimensions caller dimension v
     = verify_dimensions caller dimension (PyList [v])) /\
  (forall l,
     (verify_hex_colors caller (PyList l) = Ret tt <->
      Forall (fun c => exists s, c = PyStr s /\ String.prefix "#" s = true /\
                                 String.length s = 7%nat) l) /\
     (verify_opacities caller (PyList l) = Ret tt <->
      Forall (fun v => opacity_rejected v = false) l) /\
     (verify_dimensions caller dimension (PyList l) = Ret tt <->
      Forall (fun v => dimension_rejected v = false) l)) /\
  (forall l1 x l2 e,
     (verify_hex_colors caller (PyList l1) = Ret tt ->
      check_hex_color caller x = Raise e ->
      verify_hex_colors caller (PyList (l1 ++ x :: l2)) = Raise e) /\
     (verify_opacities caller (PyList l1) = Ret tt ->
      check_opacity caller x = Raise e ->
      verify_opacities caller (PyList (l1 ++ x :: l2)) = Raise e) /\
     (verify_dimensions caller dimension (PyList l1) = Ret tt ->
      check_dimension caller dimension x = Raise e ->
      verify_dimensions caller dimension (PyList (l1 ++ x :: l2)) = Raise e)) /\
  (forall z,
     (verify_opacities caller (PyInt z) = Ret tt <-> 0 <= z <= 255) /\
     (verify_slot caller (PyInt z) = Ret tt <-> 1 <= z <= 9)) /\
  (verify_slot caller PyNone
   = Raise (CyError [Lit "slot must be an integer between 1 and 9"]
              (Some caller)) /\
   forall l, verify_slot caller (PyList l)
   = Raise (CyError [Lit "slot must be an integer between 1 and 9"]
              (Some caller))).
Proof.
  split; [|split; [|split; [|split; [|split]]]].
  - repeat split.
  - intros v Hnone Hlist. destruct v; try contradiction; try discriminate;
      repeat split.
  - intros l. cbn [verify_hex_colors verify_opacities verify_dimensions as_list].
    rewrite !for_each_ok. split; [|split]; apply Forall_iff; intros x.
    + apply check_hex_color_ok.
    + apply check_opacity_ok.
    + apply check_dimension_ok.
  - intros l1 x l2 e.
    cbn [verify_hex_colors verify_opacities verify_dimensions as_list].
    rewrite !for_each_ok.
    split; [|split]; intros Hl1 Hx; apply for_each_first_offender; assumption.
  - intros z. split.
    + cbn [verify_opacities as_list for_each]. unfold check_opacity.
      cbn [opacity_rejected as_number num_lt num_gt].
      destruct (Z.ltb_spec z 0); destruct (Z.ltb_spec 255 z); simpl;
        split; intros H'; try discriminate; try reflexivity; lia.
    + unfold verify_slot. cbn [slot_rejected as_number num_lt num_gt].
      destruct (Z.ltb_spec z 1); destruct (Z.ltb_spec 9 z); simpl;
        split; intros H'; try discriminate; try reflexivity; lia.
  - split; [reflexivity|]. intros l. reflexivity.
Qed.

Lemma list_validators_elementwise_null_noop_witness :
  verify_opacities "set_node_opacity_default" (PyInt 177)
  = verify_opacities "set_node_opacity_default" (PyList [PyInt 177]) /\
  verify_hex_colors "set_node_color_default"
    (PyList [PyStr "#053061"; PyStr "2166AC"; PyStr "#4393C3"])
  = Raise (CyError
      [Lit dquote; Fmt (PyStr "2166AC"); Lit dquote;
       Lit " is not a valid hexadecimal color (has to begin with # and be 7 characters long, for example: #FF00FF)."]
      (Some "set_node_color_default")).
Proof.
  split.
  - destruct (list_validators_elementwise_null_noop
                "set_node_opacity_default" "width")
      as [_ [Hscalar _]].
    apply (Hscalar (PyInt 177)); [discriminate|reflexivity].
  - destruct (list_validators_elementwise_null_noop
                "set_node_color_default" "width")
      as [_ [_ [_ [Hfirst _]]]].
    apply (Hfirst [PyStr "#053061"] (PyStr "2166AC") [PyStr "#4393C3"]);
      reflexivity.
Defined.

(** C6, as stated, fails for [verify_slot]: on [None] it raises, and it takes
    no sequence. *)
Lemma verify_slot_raises_on_null :
  verify_slot "set_node_custom_position" PyNone
  = Raise (CyError [Lit "slot must be an integer between 1 and 9"]
             (Some "set_node_custom_position")) /\
  verify_slot "set_node_custom_position" (PyList [PyInt 5])
  = Raise (CyError [Lit "slot must be an integer between 1 and 9"]
             (Some "set_node_custom_position")).
Proof. split; reflexivity. Qed.

(** C10.  The numeric validators let booleans through: [True] and [False]
    are integers within 0..255, and [True] is within 1..9. *)
Theorem numeric_validators_accept_booleans (caller : string) :
  verify_opacities caller (PyBool true) = Ret tt /\
  verify_opacities caller (PyBool false) = Ret tt /\
  verify_slot caller (PyBool true) = Ret tt.
Proof. repeat split. Qed.

(** ** Properties of the style-dependency setters *)

Import StyleDependencies.

Section SetterFacts.

Context {remote : Type} (cy : cytoscape remote).

Lemma mbind_ret {A} (m : M remote A) (w : world remote) :
  (x <- m ;; ret x) w = m w.
Proof.
  unfold mbind, ret. destruct (m w) as [[a|e] w']; reflexivity.
Qed.

Lemma known_style (style_name : string) (style_names : list string) :
  negb (existsb (String.eqb style_name) style_names) = false <->
  In style_name style_names.
Proof.
  rewrite negb_false_iff, existsb_exists. split.
  - intros [x [Hin Heq]]. apply String.eqb_eq in Heq. subst x. exact Hin.
  - intros Hin. exists style_name. split; [exact Hin|apply String.eqb_refl].
Qed.

Lemma unknown_style (style_name : string) (style_names : list string) :
  negb (existsb (String.eqb style_name) style_names) = true <->
  ~ In style_name style_names.
Proof.
  rewrite <- known_style. destruct (negb _); split; intros H;
    try reflexivity; try discriminate; try (intros H'; discriminate).
  exfalso. apply H. reflexivity.
Qed.

End SetterFacts.

(** C7.  With a style name that is not among the known style names,
    [set_style_dependencies] raises the unknown-style error having issued
    only the query for the names and the write to [stderr]: no PUT and no
    reapply command, and the remote state is the one the query left. *)
Theorem set_style_dependencies_unknown_style_no_write
  {remote : Type} (cy : cytoscape remote) (w : world remote)
  (style_name : string) (dependencies : list (string * pyval))
  (base_url : string) (style_names : list string) (app' : remote) :
  get_visual_style_names cy base_url (app w) = (Ret style_names, app') ->
  ~ In style_name style_names ->
  let error :=
    "Error in py4cytoscape:set_style_dependencies. No visual style named "
      ++ dquote ++ style_name ++ dquote in
  exists issued,
    set_style_dependencies cy style_name dependencies base_url w
    = (Raise (CyError [Lit error] None),
       {| app := app'; calls := calls w ++ issued |}) /\
    issued = [GetVisualStyleNames base_url; StderrWrite error] /\
    forallb (fun c => negb (is_network_write c)) issued = true.
Proof.
  intros Hnames Hunknown error.
  exists [GetVisualStyleNames base_url; StderrWrite error].
  split; [|split; reflexivity].
  apply unknown_style in Hunknown.
  unfold set_style_dependencies, mbind, styles_get_visual_style_names, issue.
  rewrite Hnames, Hunknown.
  unfold sys_stderr_write, issue, raise. cbn [app calls].
  rewrite <- app_assoc. reflexivity.
Qed.

Lemma set_style_dependencies_unknown_style_no_write_witness :
  exists issued,
    set_style_dependencies Sample.cy "bogus"
      [("arrowColorMatchesEdge", PyBool true)] Sample.base_url Sample.w0
    = (Raise (CyError
         [Lit ("Error in py4cytoscape:set_style_dependencies. No visual style named "
               ++ dquote ++ "bogus" ++ dquote)] None),
       {| app := app Sample.w0; calls := calls Sample.w0 ++ issued |}) /\
    issued = [GetVisualStyleNames Sample.base_url;
              StderrWrite
                ("Error in py4cytoscape:set_style_dependencies. No visual style named "
                 ++ dquote ++ "bogus" ++ dquote)] /\
    forallb (fun c => negb (is_network_write c)) issued = true.
Proof.
  apply (set_style_dependencies_unknown_style_no_write Sample.cy Sample.w0
           "bogus" [("arrowColorMatchesEdge", PyBool true)] Sample.base_url
           (Sample.style_names (app Sample.w0)) (app Sample.w0)).
  - reflexivity.
  - simpl. intuition discriminate.
Defined.

(** C8.  With a known style name, [set_style_dependencies] builds from the
    mapping the list that holds, for each item in order, the record
    [{'visualPropertyDependency': dep, 'enabled': val}], issues the PUT with
    that list as its body, then the command that reapplies the style, and
    its outcome is the outcome of that second command: whatever the PUT
    returned does not appear in it. *)
Theorem set_style_dependencies_returns_reapply_result
  {remote : Type} (cy : cytoscape remote) (w : world remote)
  (style_name : string) (dependencies : list (string * pyval))
  (base_url : string) (style_names : list string) (app1 app2 : remote)
  (put_result : pyval) :
  let body :=
    PyList (map (fun item : string * pyval =>
                   PyDict [("visualPropertyDependency", PyStr (fst item));
                           ("enabled", snd item)])
                dependencies) in
  let command := "styles/" ++ style_name ++ "/dependencies" in
  let cmd := "vizmap apply styles=" ++ dquote ++ style_name ++ dquote in
  get_visual_style_names cy base_url (app w) = (Ret style_names, app1) ->
  In style_name style_names ->
  cyrest_put cy command body base_url false app1 = (Ret put_result, app2) ->
  set_style_dependencies cy style_name dependencies base_url w
  = (fst (commands_post cy cmd app2),
     {| app := snd (commands_post cy cmd app2);
        calls := calls w ++ [GetVisualStyleNames base_url;
                             CyrestPut command body base_url false;
                             CommandsPost cmd] |}).
Proof.
  intros body command cmd Hnames Hknown Hput.
  assert (Hbody : PyList (map dep_record dependencies) = body).
  { unfold body. f_equal. apply map_ext. intros [dep val]. reflexivity. }
  apply known_style in Hknown.
  unfold set_style_dependencies, mbind, styles_get_visual_style_names, issue.
  rewrite Hnames, Hknown.
  unfold commands_cyrest_put, issue. cbn [app calls].
  rewrite Hbody. fold command. rewrite Hput.
  unfold commands_commands_post, issue, ret. cbn [app calls].
  fold cmd. destruct (commands_post cy cmd app2) as [[res|e] app3];
    cbn [fst snd]; rewrite <- !app_assoc; reflexivity.
Qed.

Lemma set_style_dependencies_returns_reapply_result_witness :
  set_style_dependencies Sample.cy "galFiltered Style"
    [("arrowColorMatchesEdge", PyBool true);
     ("nodeCustomGraphicsSizeSync", PyBool false)]
    Sample.base_url Sample.w0
  = (Ret (PyDict [("views", PyList [PyInt 275240])]),
     {| app :=
          {| Sample.style_names := ["default"; "galFiltered Style"];
             Sample.stored :=
               [("styles/galFiltered Style/dependencies",
                 PyList
                   [PyDict [("visualPropertyDependency",
                             PyStr "arrowColorMatchesEdge");
                            ("enabled", PyBool true)];
                    PyDict [("visualPropertyDependency",
                             PyStr "nodeCustomGraphicsSizeSync");
                            ("enabled", PyBool false)]])] |};
        calls :=
          [GetVisualStyleNames Sample.base_url;
           CyrestPut "styles/galFiltered Style/dependencies"
             (PyList
                [PyDict [("visualPropertyDependency",
                          PyStr "arrowColorMatchesEdge");
                         ("enabled", PyBool true)];
                 PyDict [("visualPropertyDependency",
                          PyStr "nodeCustomGraphicsSizeSync");
                         ("enabled", PyBool false)]])
             Sample.base_url false;
           CommandsPost
             ("vizmap apply styles=" ++ dquote ++ "galFiltered Style"
                ++ dquote)] |}).
Proof.
  rewrite (set_style_dependencies_returns_reapply_result Sample.cy Sample.w0
             "galFiltered Style"
             [("arrowColorMatchesEdge", PyBool true);
              ("nodeCustomGraphicsSizeSync", PyBool false)]
             Sample.base_url
             (Sample.style_names (app Sample.w0)) (app Sample.w0)
             {| Sample.style_names := Sample.style_names (app Sample.w0);
                Sample.stored :=
                  [("styles/galFiltered Style/dependencies",
                    PyList
                      [PyDict [("visualPropertyDependency",
                                PyStr "arrowColorMatchesEdge");
                               ("enabled", PyBool true)];
                       PyDict [("visualPropertyDependency",
                                PyStr "nodeCustomGraphicsSizeSync");
                               ("enabled", PyBool false)]])] |}
             (PyStr EmptyString)).
  - reflexivity.
  - reflexivity.
  - simpl. right. left. reflexivity.
  - reflexivity.
Defined.

(** C9, as the code has it.  Each specific setter is [set_style_dependencies]
    on the one-item mapping of its fixed key, the value being the string
    ['true'] when the supplied state is truthy and ['false'] otherwise, and
    it returns what the generic setter returns. *)
Theorem specific_setters_specialize_generic
  {remote : Type} (cy : cytoscape remote) (w : world remote)
  (new_state : pyval) (style_name base_url : string) :
  let toggle := PyStr (if truthy new_state then "true" else "false") in
  match_arrow_color_to_edge cy new_state style_name base_url w
  = set_style_dependencies cy style_name
      [("arrowColorMatchesEdge", toggle)] base_url w /\
  lock_node_dimensions cy new_state style_name base_url w
  = set_style_dependencies cy style_name
      [("nodeSizeLocked", toggle)] base_url w /\
  sync_node_custom_graphics_size cy new_state style_name base_url w
  = set_style_dependencies cy style_name
      [("nodeCustomGraphicsSizeSync", toggle)] base_url w.
Proof.
  intros toggle.
  unfold match_arrow_color_to_edge, lock_node_dimensions,
    sync_node_custom_graphics_size.
  repeat split; apply mbind_ret.
Qed.

(** C9, as stated, fails: the flag value staged is not the supplied boolean.
    For [True] the body put by the specific setter holds the string ['true'],
    the one put by the generic setter on the boolean holds [True]. *)
Lemma match_arrow_color_stages_string_not_boolean :
  calls (snd (match_arrow_color_to_edge Sample.cy (PyBool true) "default"
                Sample.base_url Sample.w0))
  = [GetVisualStyleNames Sample.base_url;
     CyrestPut "styles/default/dependencies"
       (PyList [PyDict [("visualPropertyDependency", PyStr "arrowColorMatchesEdge");
                        ("enabled", PyStr "true")]])
       Sample.base_url false;
     CommandsPost ("vizmap apply styles=" ++ dquote ++ "default" ++ dquote)] /\
  match_arrow_color_to_edge Sample.cy (PyBool true) "default"
    Sample.base_url Sample.w0
  <> set_style_dependencies Sample.cy "default"
       [("arrowColorMatchesEdge", PyBool true)] Sample.base_url Sample.w0.
Proof.
  split; [reflexivity|]. vm_compute. intros H. discriminate H.
Qed.

(** ** Further properties of the identifier translators *)

Import Vocabulary.

Section MoreTranslatorFacts.

Variable get_table_columns :
  string -> list string -> string -> network -> string -> result dataframe.
Variables (net : network) (base_url : string) (df : dataframe).

Lemma node_suid_to_node_name_list (l : list ident) :
  get_table_columns "node" ["name"] "default" net base_url = Ret df ->
  node_suid_to_node_name get_table_columns (ArgList l) net base_url
  = named df "Invalid node SUID in list: " l.
Proof.
  intros Hdf. unfold node_suid_to_node_name, named.
  rewrite Hdf. cbn [bind iterate]. rewrite not_false_in. reflexivity.
Qed.

Lemma edge_suid_to_edge_name_list (l : list ident) :
  get_table_columns "edge" ["name"] "default" net base_url = Ret df ->
  edge_suid_to_edge_name get_table_columns (ArgList l) net base_url
  = named df "Invalid edge SUID in list: " l.
Proof.
  intros Hdf. unfold edge_suid_to_edge_name, named.
  rewrite Hdf. cbn [bind iterate]. rewrite not_false_in. reflexivity.
Qed.

End MoreTranslatorFacts.

Section NamedFacts.

Variable df : dataframe.

Lemma index_contains_In (z : Z) :
  index_contains (index df) (Suid z) = true <-> In z (index df).
Proof.
  cbn [index_contains]. rewrite existsb_exists. split.
  - intros [y [Hin Heq]]. apply Z.eqb_eq in Heq. subst y. exact Hin.
  - intros Hin. exists z. split; [exact Hin|apply Z.eqb_refl].
Qed.

Lemma names_contain_In (s : string) :
  names_contain (names df) (Name s) = true <-> In s (names df).
Proof.
  cbn [names_contain]. rewrite existsb_exists. split.
  - intros [y [Hin Heq]]. apply String.eqb_eq in Heq. subst y. exact Hin.
  - intros Hin. exists s. split; [exact Hin|apply String.eqb_refl].
Qed.

Lemma forallb_false_In {A} (f : A -> bool) (l : list A) (x : A) :
  In x l -> f x = false -> forallb f l = false.
Proof.
  intros Hin Hx. apply not_true_is_false. intros Hall.
  rewrite forallb_forall in Hall. rewrite (Hall x Hin) in Hx. discriminate.
Qed.

Lemma comprehension_none {A B} (f : A -> option B) (l : list A) (x : A) :
  In x l -> f x = None -> comprehension f l = None.
Proof.
  induction l as [|y l IH]; intros Hin Hx; [contradiction|].
  simpl. destruct Hin as [->|Hin].
  - rewrite Hx. reflexivity.
  - destruct (f y); [|reflexivity]. rewrite (IH Hin Hx). reflexivity.
Qed.

Lemma comprehension_some {A B} (f : A -> option B) (l : list A) (out : list B) :
  comprehension f l = Some out <-> Forall2 (fun x y => f x = Some y) l out.
Proof.
  revert out. induction l as [|x l IH]; intros out; simpl.
  - split.
    + intros H. injection H as <-. constructor.
    + intros H. inversion H. reflexivity.
  - split.
    + destruct (f x) as [y|] eqn:Hx; [|discriminate].
      destruct (comprehension f l) as [ys|] eqn:Hl; [|discriminate].
      cbn [option_map]. intros H. injection H as <-.
      constructor; [exact Hx|]. apply IH. reflexivity.
    + intros H. inversion H as [|a b l' out' Hx Hl]; subst.
      rewrite Hx. apply IH in Hl. rewrite Hl. reflexivity.
Qed.

Lemma list_index_position (idx : list Z) (z : Z) (i : nat) :
  list_index idx z = Some i -> nth_error idx i = Some z.
Proof.
  revert i. induction idx as [|y idx IH]; intros i; simpl; [discriminate|].
  destruct (Z.eqb_spec y z) as [->|Hneq].
  - intros H. injection H as <-. reflexivity.
  - destruct (list_index idx z) as [j|]; [|discriminate].
    cbn [option_map]. intros H. injection H as <-. simpl. apply IH. reflexivity.
Qed.

Lemma list_index_found (idx : list Z) (z : Z) :
  In z idx -> exists i, list_index idx z = Some i.
Proof.
  induction idx as [|y idx IH]; intros Hin; [contradiction|].
  simpl. destruct (Z.eqb_spec y z) as [->|Hneq].
  - exists O. reflexivity.
  - destruct Hin as [Heq|Hin]; [contradiction|].
    destruct (IH Hin) as [i Hi]. exists (S i). rewrite Hi. reflexivity.
Qed.

Lemma list_index_missing (idx : list Z) (z : Z) :
  ~ In z idx -> list_index idx z = None.
Proof.
  induction idx as [|y idx IH]; intros Hnot; [reflexivity|].
  simpl. destruct (Z.eqb_spec y z) as [->|Hneq].
  - exfalso. apply Hnot. left. reflexivity.
  - rewrite IH; [reflexivity|]. intros Hin. apply Hnot. right. exact Hin.
Qed.

(** The row at a position of the frame. *)
Lemma row_at (d : dataframe) (i : nat) (z : Z) (n : string) :
  nth_error (index d) i = Some z -> nth_error (names d) i = Some n ->
  exists r, In r d /\ suid r = z /\ name r = n.
Proof.
  revert i. induction d as [|r d IH]; intros [|i]; simpl; try discriminate.
  - intros Hz Hn. injection Hz as <-. injection Hn as <-.
    exists r. auto.
  - intros Hz Hn. destruct (IH i Hz Hn) as [r' [Hin H']].
    exists r'. auto.
Qed.

Lemma name_of_suid_row (z : Z) (n : string) :
  name_of_suid (names df) (index df) (Suid z) = Some n ->
  exists r, In r df /\ suid r = z /\ name r = n.
Proof.
  cbn [name_of_suid]. destruct (list_index (index df) z) as [i|] eqn:Hi;
    [|discriminate].
  intros Hn. apply list_index_position in Hi. eapply row_at; eassumption.
Qed.

Lemma name_of_suid_valid (z : Z) :
  In z (index df) ->
  exists n, name_of_suid (names df) (index df) (Suid z) = Some n.
Proof.
  intros Hin. cbn [name_of_suid].
  destruct (list_index_found _ _ Hin) as [i Hi]. rewrite Hi.
  apply list_index_position in Hi.
  destruct (nth_error (names df) i) as [n|] eqn:Hn; [exists n; reflexivity|].
  exfalso. apply nth_error_None in Hn.
  assert (Hlt : (i < List.length (index df))%nat)
    by (apply nth_error_Some; rewrite Hi; discriminate).
  unfold names, index in *. rewrite length_map in *. lia.
Qed.

Lemma named_fast (error_text : string) (l : list ident) :
  Forall (fun x => names_contain (names df) x = true) l ->
  named df error_text l = Ret (Some l).
Proof.
  intros Hall. unfold named.
  replace (forallb (names_contain (names df)) l) with true; [reflexivity|].
  symmetry. apply forallb_forall. apply Forall_forall. exact Hall.
Qed.

Lemma named_raises (error_text : string) (l : list ident) (z : Z) (x : ident) :
  In (Suid z) l -> In x l ->
  name_of_suid (names df) (index df) x = None ->
  named df error_text l
  = Raise (CyError [Lit error_text; Fmt (PyList (map py_of_ident l))] None).
Proof.
  intros Hz Hx Hnone. unfold named.
  rewrite (forallb_false_In _ l (Suid z) Hz) by reflexivity.
  rewrite (comprehension_none _ l x Hx Hnone). reflexivity.
Qed.

End NamedFacts.

(** X1.  [node_suid_to_node_name] and [edge_suid_to_edge_name] return the
    batch as it is when every element already is a name of the name
    column. *)
Theorem suid_to_name_identity_when_all_names
  (get_table_columns :
     string -> list string -> string -> network -> string -> result dataframe)
  (net : network) (base_url : string) (df : dataframe) (l : list ident) :
  Forall (fun x => names_contain (names df) x = true) l ->
  (get_table_columns "node" ["name"] "default" net base_url = Ret df ->
   node_suid_to_node_name get_table_columns (ArgList l) net base_url
   = Ret (Some l)) /\
  (get_table_columns "edge" ["name"] "default" net base_url = Ret df ->
   edge_suid_to_edge_name get_table_columns (ArgList l) net base_url
   = Ret (Some l)).
Proof.
  intros Hall. split; intros Hdf.
  - rewrite (node_suid_to_node_name_list _ _ _ df) by exact Hdf.
    apply named_fast. exact Hall.
  - rewrite (edge_suid_to_edge_name_list _ _ _ df) by exact Hdf.
    apply named_fast. exact Hall.
Qed.

Lemma suid_to_name_identity_when_all_names_witness :
  edge_suid_to_edge_name Sample.get_table_columns
    (ArgList [Name "YDR277C (pp) AXD206W"; Name "YDR277C (pp) YDL194W"])
    None Sample.base_url
  = Ret (Some [Name "YDR277C (pp) AXD206W"; Name "YDR277C (pp) YDL194W"]).
Proof.
  apply (suid_to_name_identity_when_all_names Sample.get_table_columns None
           Sample.base_url Sample.edge_table
           [Name "YDR277C (pp) AXD206W"; Name "YDR277C (pp) YDL194W"]).
  - repeat constructor.
  - reflexivity.
Defined.

Lemma named_translates (df : dataframe) (error_text : string) (zs : list Z) :
  Forall (fun z => In z (index df)) zs ->
  exists ns,
    named df error_text (map Suid zs) = Ret (Some (map Name ns)) /\
    Forall2 (fun z n => exists r, In r df /\ suid r = z /\ name r = n) zs ns.
Proof.
  intros Hall.
  assert (Hcomp : exists ns,
            comprehension (name_of_suid (names df) (index df)) (map Suid zs)
            = Some ns /\
            Forall2 (fun z n => exists r, In r df /\ suid r = z /\ name r = n)
              zs ns).
  { induction Hall as [|z zs Hz _ IH].
    - exists []. split; [reflexivity|constructor].
    - destruct IH as [ns [Hns Hrows]].
      destruct (name_of_suid_valid df z Hz) as [n Hn].
      exists (n :: ns). split.
      + cbn [map comprehension]. rewrite Hn, Hns. reflexivity.
      + constructor; [|exact Hrows]. apply name_of_suid_row. exact Hn. }
  destruct Hcomp as [ns [Hns Hrows]]. exists ns. split; [|exact Hrows].
  unfold named. destruct zs as [|z zs].
  - inversion Hrows. reflexivity.
  - cbn [map forallb names_contain andb]. cbn [map] in Hns. rewrite Hns.
    reflexivity.
Qed.

(** X2.  Given a batch of SUIDs that are all in the table's index,
    [node_suid_to_node_name] and [edge_suid_to_edge_name] return one name
    per SUID, in order, each the name of a row that carries that SUID. *)
Theorem suid_to_name_translates_valid_suids
  (get_table_columns :
     string -> list string -> string -> network -> string -> result dataframe)
  (net : network) (base_url : string) (df : dataframe) (zs : list Z) :
  Forall (fun z => In z (index df)) zs ->
  (get_table_columns "node" ["name"] "default" net base_url = Ret df ->
   exists ns,
     node_suid_to_node_name get_table_columns (ArgList (map Suid zs))
       net base_url = Ret (Some (map Name ns)) /\
     Forall2 (fun z n => exists r, In r df /\ suid r = z /\ name r = n) zs ns) /\
  (get_table_columns "edge" ["name"] "default" net base_url = Ret df ->
   exists ns,
     edge_suid_to_edge_name get_table_columns (ArgList (map Suid zs))
       net base_url = Ret (Some (map Name ns)) /\
     Forall2 (fun z n => exists r, In r df /\ suid r = z /\ name r = n) zs ns).
Proof.
  intros Hall. split; intros Hdf.
  - rewrite (node_suid_to_node_name_list _ _ _ df) by exact Hdf.
    apply named_translates; assumption.
  - rewrite (edge_suid_to_edge_name_list _ _ _ df) by exact Hdf.
    apply named_translates; assumption.
Qed.

Lemma suid_to_name_translates_valid_suids_witness :
  exists ns,
    node_suid_to_node_name Sample.get_table_columns
      (ArgList (map Suid [1100; 1022])) None Sample.base_url
    = Ret (Some (map Name ns)) /\
    Forall2 (fun z n => exists r, In r Sample.node_table /\
                                  suid r = z /\ name r = n) [1100; 1022] ns.
Proof.
  apply (suid_to_name_translates_valid_suids Sample.get_table_columns None
           Sample.base_url Sample.node_table [1100; 1022]).
  - repeat constructor; cbv; tauto.
  - reflexivity.
Defined.

(** X3.  A batch that holds a SUID absent from the table's index makes
    [node_suid_to_node_name] and [edge_suid_to_edge_name] raise the error
    that names the whole batch, whatever else the batch holds. *)
Theorem suid_to_name_unknown_suid_raises
  (get_table_columns :
     string -> list string -> string -> network -> string -> result dataframe)
  (net : network) (base_url : string) (df : dataframe) (l : list ident)
  (z : Z) :
  In (Suid z) l -> ~ In z (index df) ->
  (get_table_columns "node" ["name"] "default" net base_url = Ret df ->
   node_suid_to_node_name get_table_columns (ArgList l) net base_url
   = Raise (CyError [Lit "Invalid node SUID in list: ";
                     Fmt (PyList (map py_of_ident l))] None)) /\
  (get_table_columns "edge" ["name"] "default" net base_url = Ret df ->
   edge_suid_to_edge_name get_table_columns (ArgList l) net base_url
   = Raise (CyError [Lit "Invalid edge SUID in list: ";
                     Fmt (PyList (map py_of_ident l))] None)).
Proof.
  intros Hz Hnot.
  assert (Hnone : name_of_suid (names df) (index df) (Suid z) = None).
  { cbn [name_of_suid]. rewrite (list_index_missing _ _ Hnot). reflexivity. }
  split; intros Hdf.
  - rewrite (node_suid_to_node_name_list _ _ _ df) by exact Hdf.
    apply (named_raises df _ l z (Suid z)); assumption.
  - rewrite (edge_suid_to_edge_name_list _ _ _ df) by exact Hdf.
    apply (named_raises df _ l z (Suid z)); assumption.
Qed.

Lemma suid_to_name_unknown_suid_raises_witness :
  node_suid_to_node_name Sample.get_table_columns
    (ArgList [Suid 1022; Suid 7]) None Sample.base_url
  = Raise (CyError [Lit "Invalid node SUID in list: ";
                    Fmt (PyList [PyInt 1022; PyInt 7])] None).
Proof.
  apply (suid_to_name_unknown_suid_raises Sample.get_table_columns None
           Sample.base_url Sample.node_table [Suid 1022; Suid 7] 7).
  - cbv. tauto.
  - cbv. intuition discriminate.
  - reflexivity.
Defined.

(** X4.  A batch that mixes at least one name with at least one SUID raises
    in all four translators, whatever the table holds: the name keeps the
    name-to-SUID translators off their fast path and the SUID then matches
    no name; the SUID keeps the SUID-to-name translators off theirs and the
    name is then not found in the index. *)
Theorem mixed_batch_always_raises
  (get_table_columns :
     string -> list string -> string -> network -> string -> result dataframe)
  (net : network) (base_url : string) (df : dataframe) (l : list ident)
  (s : string) (z : Z) :
  In (Name s) l -> In (Suid z) l ->
  (get_table_columns "node" ["name"] "default" net base_url = Ret df ->
   node_name_to_node_suid get_table_columns (ArgList l) net base_url
   = Raise (CyError [Lit "Invalid name in node name list: ";
                     Fmt (PyList (map py_of_ident l))] None) /\
   node_suid_to_node_name get_table_columns (ArgList l) net base_url
   = Raise (CyError [Lit "Invalid node SUID in list: ";
                     Fmt (PyList (map py_of_ident l))] None)) /\
  (get_table_columns "edge" ["name"] "default" net base_url = Ret df ->
   edge_name_to_edge_suid get_table_columns (ArgList l) net base_url
   = Raise (CyError [Lit "Invalid edge name in list: ";
                     Fmt (PyList (map py_of_ident l))] None) /\
   edge_suid_to_edge_name get_table_columns (ArgList l) net base_url
   = Raise (CyError [Lit "Invalid edge SUID in list: ";
                     Fmt (PyList (map py_of_ident l))] None)).
Proof.
  intros Hs Hz.
  assert (Hslow : forallb (index_contains (index df)) l = false)
    by (apply (forallb_false_In _ l (Name s) Hs); reflexivity).
  assert (Hex : Exists (fun x => rows_named df x = []) l).
  { apply Exists_exists. exists (Suid z). split; [exact Hz|].
    apply suid_matches_no_name. }
  split; intros Hdf; split.
  - rewrite (node_name_to_node_suid_list _ _ _ df) by exact Hdf.
    apply resolved_unknown; assumption.
  - rewrite (node_suid_to_node_name_list _ _ _ df) by exact Hdf.
    apply (named_raises df _ l z (Name s)); try assumption. reflexivity.
  - rewrite (edge_name_to_edge_suid_list _ _ _ df) by exact Hdf.
    apply resolved_unknown; assumption.
  - rewrite (edge_suid_to_edge_name_list _ _ _ df) by exact Hdf.
    apply (named_raises df _ l z (Name s)); try assumption. reflexivity.
Qed.

Lemma mixed_batch_always_raises_witness :
  node_name_to_node_suid Sample.get_table_columns
    (ArgList [Suid 1022; Name "YDL194W"]) None Sample.base_url
  = Raise (CyError [Lit "Invalid name in node name list: ";
                    Fmt (PyList [PyInt 1022; PyStr "YDL194W"])] None) /\
  node_suid_to_node_name Sample.get_table_columns
    (ArgList [Suid 1022; Name "YDL194W"]) None Sample.base_url
  = Raise (CyError [Lit "Invalid node SUID in list: ";
                    Fmt (PyList [PyInt 1022; PyStr "YDL194W"])] None).
Proof.
  apply (mixed_batch_always_raises Sample.get_table_columns None
           Sample.base_url Sample.node_table
           [Suid 1022; Name "YDL194W"] "YDL194W" 1022).
  - cbv. tauto.
  - cbv. tauto.
  - reflexivity.
Defined.

Section OutputFacts.

Variable df : dataframe.

Lemma scalar_if_single_of_table (x : ident) :
  suids_named df x <> [] ->
  suids_of_table df (scalar_if_single (suids_named df x)).
Proof.
  intros Hne.
  assert (Hsub : Forall (fun z => In z (index df)) (suids_named df x)).
  { apply Forall_forall. intros z Hz. apply suids_named_In in Hz.
    destruct Hz as [r [Hin [_ <-]]]. unfold index. apply in_map. exact Hin. }
  destruct (suids_named df x) as [|a [|b t]]; [contradiction| |].
  - inversion Hsub; subst. assumption.
  - split; [simpl; lia|exact Hsub].
Qed.

Lemma resolved_output (error_text : string) (l : list ident)
  (out : list translated) :
  resolved df error_text l = Ret (Some out) ->
  List.length out = List.length l /\ Forall (suids_of_table df) out.
Proof.
  unfold resolved.
  destruct (forallb (index_contains (index df)) l) eqn:Hfast.
  - intros H. injection H as <-. split; [apply length_map|].
    rewrite forallb_forall in Hfast. apply Forall_forall. intros t Ht.
    apply in_map_iff in Ht. destruct Ht as [x [<- Hx]].
    specialize (Hfast x Hx). destruct x as [s|z]; [discriminate|].
    apply index_contains_In. exact Hfast.
  - destruct (existsb (fun x => Nat.eqb (List.length x) 0)
                (map (suids_named df) l)) eqn:Hnone; [discriminate|].
    intros H. injection H as <-. split; [rewrite !length_map; reflexivity|].
    apply Forall_forall. intros t Ht.
    apply in_map_iff in Ht. destruct Ht as [ss [<- Hss]].
    apply in_map_iff in Hss. destruct Hss as [x [<- Hx]].
    apply scalar_if_single_of_table. intros Hempty.
    assert (Hex : existsb (fun x => Nat.eqb (List.length x) 0)
                    (map (suids_named df) l) = true).
    { apply existsb_exists. exists (suids_named df x). split.
      - apply in_map. exact Hx.
      - rewrite Hempty. reflexivity. }
    rewrite Hex in Hnone. discriminate.
Qed.

Lemma named_output (error_text : string) (l out : list ident) :
  named df error_text l = Ret (Some out) ->
  List.length out = List.length l /\ Forall (name_of_table df) out.
Proof.
  unfold named.
  destruct (forallb (names_contain (names df)) l) eqn:Hfast.
  - intros H. injection H as <-. split; [reflexivity|].
    rewrite forallb_forall in Hfast. apply Forall_forall. intros x Hx.
    specialize (Hfast x Hx). destruct x as [s|z]; [|discriminate].
    apply names_contain_In. exact Hfast.
  - destruct (comprehension (name_of_suid (names df) (index df)) l)
      as [ns|] eqn:Hns; [|discriminate].
    intros H. injection H as <-. apply comprehension_some in Hns.
    split.
    + rewrite length_map. symmetry. eapply Forall2_length. exact Hns.
    + clear Hfast. induction Hns as [|x n l ns Hx _ IH]; [constructor|].
      cbn [map]. constructor; [|exact IH].
      destruct x as [s|z]; [discriminate|].
      apply name_of_suid_row in Hx. destruct Hx as [r [Hin [_ <-]]].
      unfold name_of_table, names. apply in_map. exact Hin.
Qed.

Lemma name_of_table_contained (l : list ident) :
  Forall (name_of_table df) l ->
  Forall (fun x => names_contain (names df) x = true) l.
Proof.
  intros H. eapply Forall_impl; [|exact H]. intros [s|z] Hx; [|contradiction].
  apply names_contain_In. exact Hx.
Qed.

End OutputFacts.

(** X5.  Whatever [node_name_to_node_suid] or [edge_name_to_edge_suid]
    returns for a list has the length of the batch, and every element of it
    is a SUID of the table's index or a list of at least two of them: a
    returned list holds no name and no empty or one-element list. *)
Theorem name_to_suid_returns_only_table_suids
  (get_table_columns :
     string -> list string -> string -> network -> string -> result dataframe)
  (net : network) (base_url : string) (df : dataframe) (l : list ident)
  (out : list translated) :
  (get_table_columns "node" ["name"] "default" net base_url = Ret df ->
   node_name_to_node_suid get_table_columns (ArgList l) net base_url
   = Ret (Some out) ->
   List.length out = List.length l /\ Forall (suids_of_table df) out) /\
  (get_table_columns "edge" ["name"] "default" net base_url = Ret df ->
   edge_name_to_edge_suid get_table_columns (ArgList l) net base_url
   = Ret (Some out) ->
   List.length out = List.length l /\ Forall (suids_of_table df) out).
Proof.
  split; intros Hdf Hout.
  - rewrite (node_name_to_node_suid_list _ _ _ df) in Hout by exact Hdf.
    eapply resolved_output. exact Hout.
  - rewrite (edge_name_to_edge_suid_list _ _ _ df) in Hout by exact Hdf.
    eapply resolved_output. exact Hout.
Qed.

Lemma name_to_suid_returns_only_table_suids_witness :
  List.length [One (Suid 1022); Many [1099; 1100]]
  = List.length [Name "YDR277C"; Name "AXD206W"] /\
  Forall (suids_of_table Sample.node_table)
    [One (Suid 1022); Many [1099; 1100]].
Proof.
  destruct (name_to_suid_returns_only_table_suids Sample.get_table_columns
              None Sample.base_url Sample.node_table
              [Name "YDR277C"; Name "AXD206W"]
              [One (Suid 1022); Many [1099; 1100]]) as [Hnode _].
  apply Hnode; reflexivity.
Defined.

(** X6.  Whatever [node_suid_to_node_name] or [edge_suid_to_edge_name]
    returns for a list has the length of the batch and holds only names of
    the table's name column, never a SUID. *)
Theorem suid_to_name_returns_only_table_names
  (get_table_columns :
     string -> list string -> string -> network -> string -> result dataframe)
  (net : network) (base_url : string) (df : dataframe) (l out : list ident) :
  (get_table_columns "node" ["name"] "default" net base_url = Ret df ->
   node_suid_to_node_name get_table_columns (ArgList l) net base_url
   = Ret (Some out) ->
   List.length out = List.length l /\ Forall (name_of_table df) out) /\
  (get_table_columns "edge" ["name"] "default" net base_url = Ret df ->
   edge_suid_to_edge_name get_table_columns (ArgList l) net base_url
   = Ret (Some out) ->
   List.length out = List.length l /\ Forall (name_of_table df) out).
Proof.
  split; intros Hdf Hout.
  - rewrite (node_suid_to_node_name_list _ _ _ df) in Hout by exact Hdf.
    eapply named_output. exact Hout.
  - rewrite (edge_suid_to_edge_name_list _ _ _ df) in Hout by exact Hdf.
    eapply named_output. exact Hout.
Qed.

Lemma suid_to_name_returns_only_table_names_witness :
  List.length [Name "AXD206W"; Name "YDR277C"]
  = List.length [Suid 1100; Suid 1022] /\
  Forall (name_of_table Sample.node_table) [Name "AXD206W"; Name "YDR277C"].
Proof.
  destruct (suid_to_name_returns_only_table_names Sample.get_table_columns
              None Sample.base_url Sample.node_table
              [Suid 1100; Suid 1022] [Name "AXD206W"; Name "YDR277C"])
    as [Hnode _].
  apply Hnode; reflexivity.
Defined.

(** X7.  Translating what a translator returned changes nothing: the names
    returned by [node_suid_to_node_name] go through it unchanged, and a list
    of scalar SUIDs returned by [node_name_to_node_suid] goes through it
    unchanged; the same for the edge translators. *)
Theorem translators_idempotent
  (get_table_columns :
     string -> list string -> string -> network -> string -> result dataframe)
  (net : network) (base_url : string) (df : dataframe) (l : list ident) :
  (get_table_columns "node" ["name"] "default" net base_url = Ret df ->
   (forall out,
      node_suid_to_node_name get_table_columns (ArgList l) net base_url
      = Ret (Some out) ->
      node_suid_to_node_name get_table_columns (ArgList out) net base_url
      = Ret (Some out)) /\
   (forall zs,
      node_name_to_node_suid get_table_columns (ArgList l) net base_url
      = Ret (Some (map One (map Suid zs))) ->
      node_name_to_node_suid get_table_columns (ArgList (map Suid zs))
        net base_url
      = Ret (Some (map One (map Suid zs))))) /\
  (get_table_columns "edge" ["name"] "default" net base_url = Ret df ->
   (forall out,
      edge_suid_to_edge_name get_table_columns (ArgList l) net base_url
      = Ret (Some out) ->
      edge_suid_to_edge_name get_table_columns (ArgList out) net base_url
      = Ret (Some out)) /\
   (forall zs,
      edge_name_to_edge_suid get_table_columns (ArgList l) net base_url
      = Ret (Some (map One (map Suid zs))) ->
      edge_name_to_edge_suid get_table_columns (ArgList (map Suid zs))
        net base_url
      = Ret (Some (map One (map Suid zs))))).
Proof.
  assert (Hsuids : forall zs,
            Forall (suids_of_table df) (map One (map Suid zs)) ->
            Forall (fun x => index_contains (index df) x = true)
              (map Suid zs)).
  { intros zs H. rewrite Forall_forall in *. intros x Hx.
    apply in_map_iff in Hx. destruct Hx as [z [<- Hz]].
    apply index_contains_In.
    apply (H (One (Suid z))). apply in_map. apply in_map. exact Hz. }
  split; intros Hdf; split.
  - intros out Hout.
    rewrite (node_suid_to_node_name_list _ _ _ df) in * by exact Hdf.
    apply named_fast. apply name_of_table_contained.
    eapply named_output. exact Hout.
  - intros zs Hout.
    rewrite (node_name_to_node_suid_list _ _ _ df) in * by exact Hdf.
    apply resolved_fast. apply Hsuids. eapply resolved_output. exact Hout.
  - intros out Hout.
    rewrite (edge_suid_to_edge_name_list _ _ _ df) in * by exact Hdf.
    apply named_fast. apply name_of_table_contained.
    eapply named_output. exact Hout.
  - intros zs Hout.
    rewrite (edge_name_to_edge_suid_list _ _ _ df) in * by exact Hdf.
    apply resolved_fast. apply Hsuids. eapply resolved_output. exact Hout.
Qed.

Lemma translators_idempotent_witness :
  node_name_to_node_suid Sample.get_table_columns
    (ArgList (map Suid [1022; 1023])) None Sample.base_url
  = Ret (Some (map One (map Suid [1022; 1023]))).
Proof.
  destruct (translators_idempotent Sample.get_table_columns None
              Sample.base_url Sample.node_table
              [Name "YDR277C"; Name "YDL194W"]) as [Hnode _].
  destruct (Hnode eq_refl) as [_ Hsuids].
  apply (Hsuids [1022; 1023]). reflexivity.
Defined.

Section RoundTripFacts.

Variable df : dataframe.
Hypothesis unique_suids : NoDup (index df).

Lemma named_rows (error_text : string) (rs : list row) :
  Forall (fun r => In r df) rs ->
  named df error_text (map (fun r => Suid (suid r)) rs)
  = Ret (Some (map (fun r => Name (name r)) rs)).
Proof.
  intros Hrows.
  assert (Hcomp : comprehension (name_of_suid (names df) (index df))
                    (map (fun r => Suid (suid r)) rs)
                  = Some (map name rs)).
  { induction Hrows as [|r rs Hr _ IH]; [reflexivity|].
    cbn [map comprehension].
    rewrite (list_index_first df r unique_suids Hr), IH. reflexivity. }
  unfold named. destruct rs as [|r rs]; [reflexivity|].
  cbn [map forallb names_contain andb]. cbn [map] in Hcomp. rewrite Hcomp.
  cbn [map]. rewrite map_map. reflexivity.
Qed.

Lemma resolved_unambiguous (error_text : string) (ns : list string)
  (rs : list row) :
  Forall2 (fun n r => rows_named df (Name n) = [r]) ns rs ->
  resolved df error_text (map Name ns)
  = Ret (Some (map (fun r => One (Suid (suid r))) rs)).
Proof.
  intros Hall.
  assert (Hout : map scalar_if_single (map (suids_named df) (map Name ns))
                 = map (fun r => One (Suid (suid r))) rs).
  { induction Hall as [|n r ns rs Hn _ IH]; [reflexivity|].
    cbn [map]. rewrite IH. unfold suids_named at 1.
    fold (rows_named df (Name n)). rewrite Hn. reflexivity. }
  destruct ns as [|n ns].
  - inversion Hall. reflexivity.
  - rewrite resolved_translates.
    + rewrite Hout. reflexivity.
    + reflexivity.
    + clear Hout. induction Hall as [|m r ms rs Hm _ IH]; [constructor|].
      cbn [map]. constructor; [|exact IH]. rewrite Hm. discriminate.
Qed.

Lemma unambiguous_rows (ns : list string) (rs : list row) :
  Forall2 (fun n r => rows_named df (Name n) = [r]) ns rs ->
  Forall (fun r => In r df) rs /\
  map (fun r => Name (name r)) rs = map Name ns.
Proof.
  intros Hall. induction Hall as [|n r ns rs Hn _ [IHin IHnames]].
  - split; [constructor|reflexivity].
  - destruct (rows_named_single df n r Hn) as [Hin Hname]. split.
    + constructor; assumption.
    + cbn [map]. rewrite Hname, IHnames. reflexivity.
Qed.

End RoundTripFacts.

(** X8.  A whole batch of unambiguous names round-trips, for nodes and for
    edges: the name translator returns the SUID of each name's only row and
    the SUID translator turns those SUIDs back into the names, in order.
    The table has no SUID on two rows. *)
Theorem batch_name_suid_round_trip
  (get_table_columns :
     string -> list string -> string -> network -> string -> result dataframe)
  (net : network) (base_url : string) (df : dataframe)
  (ns : list string) (rs : list row) :
  NoDup (index df) ->
  Forall2 (fun n r => rows_named df (Name n) = [r]) ns rs ->
  (get_table_columns "node" ["name"] "default" net base_url = Ret df ->
   node_name_to_node_suid get_table_columns (ArgList (map Name ns))
     net base_url
   = Ret (Some (map (fun r => One (Suid (suid r))) rs)) /\
   node_suid_to_node_name get_table_columns
     (ArgList (map (fun r => Suid (suid r)) rs)) net base_url
   = Ret (Some (map Name ns))) /\
  (get_table_columns "edge" ["name"] "default" net base_url = Ret df ->
   edge_name_to_edge_suid get_table_columns (ArgList (map Name ns))
     net base_url
   = Ret (Some (map (fun r => One (Suid (suid r))) rs)) /\
   edge_suid_to_edge_name get_table_columns
     (ArgList (map (fun r => Suid (suid r)) rs)) net base_url
   = Ret (Some (map Name ns))).
Proof.
  intros Hnd Hall.
  destruct (unambiguous_rows df ns rs Hall) as [Hin Hnames].
  split; intros Hdf; split.
  - rewrite (node_name_to_node_suid_list _ _ _ df) by exact Hdf.
    apply resolved_unambiguous. exact Hall.
  - rewrite (node_suid_to_node_name_list _ _ _ df) by exact Hdf.
    rewrite <- Hnames. apply named_rows; assumption.
  - rewrite (edge_name_to_edge_suid_list _ _ _ df) by exact Hdf.
    apply resolved_unambiguous. exact Hall.
  - rewrite (edge_suid_to_edge_name_list _ _ _ df) by exact Hdf.
    rewrite <- Hnames. apply named_rows; assumption.
Qed.

Lemma batch_name_suid_round_trip_witness :
  edge_name_to_edge_suid Sample.get_table_columns
    (ArgList (map Name ["YDR277C (pp) YDR206W"; "YDR277C (pp) YDL194W"]))
    None Sample.base_url
  = Ret (Some [One (Suid 2023); One (Suid 2022)]) /\
  edge_suid_to_edge_name Sample.get_table_columns
    (ArgList [Suid 2023; Suid 2022]) None Sample.base_url
  = Ret (Some (map Name ["YDR277C (pp) YDR206W"; "YDR277C (pp) YDL194W"])).
Proof.
  destruct (batch_name_suid_round_trip Sample.get_table_columns None
              Sample.base_url Sample.edge_table
              ["YDR277C (pp) YDR206W"; "YDR277C (pp) YDL194W"]
              [ {| suid := 2023; name := "YDR277C (pp) YDR206W" |};
                {| suid := 2022; name := "YDR277C (pp) YDL194W" |} ])
    as [_ Hedge].
  - vm_compute. repeat constructor; simpl; intuition discriminate.
  - repeat constructor.
  - apply Hedge. reflexivity.
Defined.

(** X9.  An ambiguous name and its candidates: for a name carried by two or
    more rows, [node_name_to_node_suid] returns the list of those rows'
    SUIDs, and [node_suid_to_node_name] turns every one of these SUIDs back
    into that name.  The table has no SUID on two rows. *)
Theorem ambiguous_name_candidates_map_back
  (get_table_columns :
     string -> list string -> string -> network -> string -> result dataframe)
  (net : network) (base_url : string) (df : dataframe) (n : string) :
  get_table_columns "node" ["name"] "default" net base_url = Ret df ->
  NoDup (index df) ->
  (2 <= List.length (rows_named df (Name n)))%nat ->
  let candidates := map suid (rows_named df (Name n)) in
  node_name_to_node_suid get_table_columns (ArgList [Name n]) net base_url
  = Ret (Some [Many candidates]) /\
  node_suid_to_node_name get_table_columns (ArgList (map Suid candidates))
    net base_url
  = Ret (Some (map (fun _ => Name n) candidates)).
Proof.
  intros Hdf Hnd Hlen candidates. split.
  - rewrite (node_name_to_node_suid_list _ _ _ df) by exact Hdf.
    rewrite resolved_translates.
    + cbn [map]. unfold suids_named, index. fold (rows_named df (Name n)).
      fold candidates.
      assert (Hc : List.length candidates = List.length (rows_named df (Name n)))
        by apply length_map.
      destruct candidates as [|a [|b t]]; simpl in Hc; try lia. reflexivity.
    + reflexivity.
    + constructor; [|constructor]. intros Hempty. rewrite Hempty in Hlen.
      simpl in Hlen. lia.
  - rewrite (node_suid_to_node_name_list _ _ _ df) by exact Hdf.
    unfold candidates. rewrite !map_map.
    rewrite (named_rows df Hnd).
    + f_equal. f_equal. apply map_ext_in. intros r Hr.
      unfold rows_named in Hr. apply filter_In in Hr. destruct Hr as [_ Heq].
      apply String.eqb_eq in Heq. rewrite Heq. reflexivity.
    + apply Forall_forall. intros r Hr. unfold rows_named in Hr.
      apply filter_In in Hr. apply Hr.
Qed.

Lemma ambiguous_name_candidates_map_back_witness :
  node_name_to_node_suid Sample.get_table_columns
    (ArgList [Name "AXD206W"]) None Sample.base_url
  = Ret (Some [Many [1099; 1100]]) /\
  node_suid_to_node_name Sample.get_table_columns
    (ArgList [Suid 1099; Suid 1100]) None Sample.base_url
  = Ret (Some [Name "AXD206W"; Name "AXD206W"]).
Proof.
  apply (ambiguous_name_candidates_map_back Sample.get_table_columns None
           Sample.base_url Sample.node_table "AXD206W").
  - reflexivity.
  - vm_compute. repeat constructor; simpl; intuition discriminate.
  - vm_compute. lia.
Defined.

(** X10.  The shape of the argument, for all four translators: [None] is
    returned as [None] without the table being asked for, so even when the
    table collaborator would raise; a single integer, which the docstrings
    show as accepted, raises [TypeError] once the table is fetched, whether
    or not it is a SUID of the table. *)
Theorem translators_none_and_scalar_integer
  (get_table_columns :
     string -> list string -> string -> network -> string -> result dataframe)
  (net : network) (base_url : string) :
  (node_name_to_node_suid get_table_columns ArgNone net base_url = Ret None /\
   node_suid_to_node_name get_table_columns ArgNone net base_url = Ret None /\
   edge_name_to_edge_suid get_table_columns ArgNone net base_url = Ret None /\
   edge_suid_to_edge_name get_table_columns ArgNone net base_url = Ret None) /\
  (forall df z,
     get_table_columns "node" ["name"] "default" net base_url = Ret df ->
     node_name_to_node_suid get_table_columns (ArgInt z) net base_url
     = Raise TypeError /\
     node_suid_to_node_name get_table_columns (ArgInt z) net base_url
     = Raise TypeError) /\
  (forall df z,
     get_table_columns "edge" ["name"] "default" net base_url = Ret df ->
     edge_name_to_edge_suid get_table_columns (ArgInt z) net base_url
     = Raise TypeError /\
     edge_suid_to_edge_name get_table_columns (ArgInt z) net base_url
     = Raise TypeError).
Proof.
  split; [repeat split|].
  split; intros df z Hdf;
    unfold node_name_to_node_suid, node_suid_to_node_name,
      edge_name_to_edge_suid, edge_suid_to_edge_name;
    rewrite Hdf; split; reflexivity.
Qed.

Lemma translators_none_and_scalar_integer_witness :
  node_suid_to_node_name Sample.get_table_columns (ArgInt 1022) None
    Sample.base_url
  = Raise TypeError.
Proof.
  destruct (translators_none_and_scalar_integer Sample.get_table_columns None
              Sample.base_url) as [_ [Hnode _]].
  apply (Hnode Sample.node_table 1022). reflexivity.
Defined.

(** ** Properties of the palettes and of URL building *)

Import Palettes Urls.

(** X11.  [cyPalette] knows exactly the six palette names, raising
    [KeyError] for any other; every palette it returns is a non-empty list
    that [verify_hex_colors] accepts. *)
Theorem cyPalette_colors_are_valid (name caller : string) :
  (cyPalette name = None <->
   ~ In name ["set1"; "set2"; "set3"; "reds"; "rdbu"; "burd"]) /\
  (forall colors,
     cyPalette name = Some colors ->
     verify_hex_colors caller colors = Ret tt /\ colors <> PyList []).
Proof.
  unfold cyPalette. cbn [PALETTES getitem]. split.
  - repeat match goal with
           | |- context [String.eqb ?k name] =>
               destruct (String.eqb_spec k name) as [<-|?]
           end;
      cbn [option_map]; split; intros H;
      try discriminate; try (exfalso; apply H; simpl; tauto);
      try reflexivity.
    simpl. intuition congruence.
  - intros colors.
    repeat match goal with
           | |- context [String.eqb ?k name] =>
               destruct (String.eqb k name)
           end;
      cbn [option_map]; intros H; try discriminate;
      injection H as <-; (split; [reflexivity|discriminate]).
Qed.

Lemma cyPalette_colors_are_valid_witness :
  verify_hex_colors "set_node_color_mapping"
    (PyList (map PyStr ["#053061"; "#2166AC"; "#4393C3"; "#92C5DE"; "#D1E5F0";
                        "#F7F7F7"; "#FDDBC7"; "#F4A582"; "#D6604D"; "#B2182B";
                        "#67001F"]))
  = Ret tt.
Proof.
  apply (cyPalette_colors_are_valid "burd" "set_node_color_mapping").
  reflexivity.
Defined.

Section StringFacts.

Lemma string_app_assoc (a b c : string) :
  ((a ++ b) ++ c = a ++ (b ++ c))%string.
Proof. induction a as [|x a IH]; simpl; [reflexivity|]. rewrite IH. reflexivity. Qed.

Lemma quote_from_bytes_app (bs bs' : list N) :
  quote_from_bytes (bs ++ bs')
  = (quote_from_bytes bs ++ quote_from_bytes bs')%string.
Proof.
  induction bs as [|b bs IH]; simpl; [reflexivity|].
  rewrite IH, string_app_assoc. reflexivity.
Qed.

Lemma quote_cons (c : ascii) (s : string) :
  quote (String c s) = (quote_from_bytes (utf8 c) ++ quote s)%string.
Proof.
  unfold quote, encode. cbn [list_ascii_of_string flat_map].
  apply quote_from_bytes_app.
Qed.

Lemma quote_safe_char (c : ascii) :
  is_safe c = true -> quote_from_bytes (utf8 c) = String c EmptyString.
Proof.
  destruct c as [[] [] [] [] [] [] [] []]; intros H;
    try reflexivity; vm_compute in H; discriminate H.
Qed.

End StringFacts.

(** X12.  A command made only of letters, digits and the characters
    [_ . - ~ /] is appended to the base URL as it is, after one slash. *)
Theorem build_url_keeps_safe_command (base_url command : string) :
  forallb is_safe (list_ascii_of_string command) = true ->
  build_url base_url (Some command) = (base_url ++ "/" ++ command)%string.
Proof.
  intros Hsafe. cbn [build_url]. do 2 f_equal.
  induction command as [|c s IH]; [reflexivity|].
  cbn [list_ascii_of_string forallb] in Hsafe.
  apply andb_true_iff in Hsafe. destruct Hsafe as [Hc Hs].
  rewrite quote_cons, (quote_safe_char c Hc), (IH Hs). reflexivity.
Qed.

Lemma build_url_keeps_safe_command_witness :
  build_url "http://127.0.0.1:1234/v1" (Some "collections/1043355/tables/default")
  = "http://127.0.0.1:1234/v1/collections/1043355/tables/default".
Proof.
  apply (build_url_keeps_safe_command "http://127.0.0.1:1234/v1"
           "collections/1043355/tables/default").
  reflexivity.
Defined.


(** ** URLs over strings of any code points *)

Section UnicodeFacts.

Import UnicodeUrls.
Local Open Scope list_scope.
Local Open Scope N_scope.

Ltac euclid := zify; Z.to_euclidean_division_equations; lia.

Lemma codes_app (a b : string) :
  codes (a ++ b)%string = codes a ++ codes b.
Proof.
  unfold codes. induction a as [|x a IH]; simpl; [reflexivity|].
  rewrite IH. reflexivity.
Qed.

Lemma below_256 (b : N) :
  b < 256 -> In b (map N.of_nat (seq 0 256)).
Proof.
  intros Hb. apply in_map_iff. exists (N.to_nat b). split.
  - apply Nnat.N2Nat.id.
  - apply in_seq. lia.
Qed.

Lemma quoter_spelled (b : N) : b < 256 -> spelled b = true.
Proof.
  intros Hb.
  assert (Hall : forallb spelled (map N.of_nat (seq 0 256)) = true)
    by (vm_compute; reflexivity).
  rewrite forallb_forall in Hall. apply Hall. apply below_256. exact Hb.
Qed.

Lemma quoter_url_characters (b : N) :
  b < 256 -> forallb is_url_character (codes (quoter b)) = true.
Proof.
  intros Hb.
  assert (Hall : forallb (fun x => forallb is_url_character (codes (quoter x)))
                   (map N.of_nat (seq 0 256)) = true)
    by (vm_compute; reflexivity).
  rewrite forallb_forall in Hall. apply Hall. apply below_256. exact Hb.
Qed.

Lemma unquote_quoter (b : N) (rest : text) :
  b < 256 -> unquote (codes (quoter b) ++ rest) = b :: unquote rest.
Proof.
  intros Hb. pose proof (quoter_spelled b Hb) as Hs. unfold spelled in Hs.
  destruct (codes (quoter b)) as [|c [|h [|l [|x t]]]]; try discriminate.
  - apply andb_true_iff in Hs. destruct Hs as [Hc Hp].
    apply N.eqb_eq in Hc. subst c. apply negb_true_iff in Hp.
    cbn [List.app unquote]. rewrite Hp. reflexivity.
  - apply andb_true_iff in Hs. destruct Hs as [Hp Hv].
    apply N.eqb_eq in Hp. apply N.eqb_eq in Hv. subst c.
    cbn [List.app unquote]. cbn [N.eqb Pos.eqb]. rewrite Hv. reflexivity.
Qed.

Lemma unquote_quote_from_bytes (bs : list N) :
  Forall (fun b => b < 256) bs -> unquote (quote_from_bytes bs) = bs.
Proof.
  intros Hbs. induction Hbs as [|b bs Hb _ IH]; [reflexivity|].
  unfold quote_from_bytes in *. cbn [flat_map].
  rewrite (unquote_quoter b _ Hb), IH. reflexivity.
Qed.

Lemma quote_from_bytes_url_characters (bs : list N) :
  Forall (fun b => b < 256) bs ->
  forallb is_url_character (quote_from_bytes bs) = true.
Proof.
  intros Hbs. induction Hbs as [|b bs Hb _ IH]; [reflexivity|].
  unfold quote_from_bytes in *. cbn [flat_map].
  rewrite forallb_app, (quoter_url_characters b Hb), IH. reflexivity.
Qed.

Lemma some_inj {A} (x y : A) : Some x = Some y -> x = y.
Proof. intros H. injection H as H. exact H. Qed.

Lemma utf8_bytes (c : N) (bs : list N) :
  utf8 c = Some bs -> Forall (fun b => b < 256) bs.
Proof.
  unfold utf8.
  destruct (N.ltb_spec c 128); [|destruct (N.ltb_spec c 2048);
    [|destruct (N.ltb_spec c 65536);
      [destruct ((55296 <=? c) && (c <=? 57343))|
       destruct (N.ltb_spec c 1114112)]]];
    intros Hbs; try discriminate; apply some_inj in Hbs; subst bs;
    repeat (apply Forall_cons; [euclid|]); apply Forall_nil.
Qed.

Lemma decode_utf8 (c : N) (bs rest : list N) :
  utf8 c = Some bs -> decode (bs ++ rest) = c :: decode rest.
Proof.
  unfold utf8.
  destruct (N.ltb_spec c 128) as [H1|H1].
  - intros Hbs. apply some_inj in Hbs. subst bs. cbn [List.app decode].
    replace (c <? 128) with true by (symmetry; apply N.ltb_lt; exact H1).
    reflexivity.
  - destruct (N.ltb_spec c 2048) as [H2|H2].
    + intros Hbs. apply some_inj in Hbs. subst bs. cbn [List.app decode].
      replace (192 + c / 64 <? 128) with false
        by (symmetry; apply N.ltb_ge; euclid).
      replace (192 + c / 64 <? 224) with true
        by (symmetry; apply N.ltb_lt; euclid).
      f_equal. euclid.
    + destruct (N.ltb_spec c 65536) as [H3|H3].
      * destruct ((55296 <=? c) && (c <=? 57343)); [discriminate|].
        intros Hbs. apply some_inj in Hbs. subst bs. cbn [List.app decode].
        replace (224 + c / 4096 <? 128) with false
          by (symmetry; apply N.ltb_ge; euclid).
        replace (224 + c / 4096 <? 224) with false
          by (symmetry; apply N.ltb_ge; euclid).
        replace (224 + c / 4096 <? 240) with true
          by (symmetry; apply N.ltb_lt; euclid).
        f_equal. euclid.
      * destruct (N.ltb_spec c 1114112) as [H4|H4]; [|discriminate].
        intros Hbs. apply some_inj in Hbs. subst bs. cbn [List.app decode].
        replace (240 + c / 262144 <? 128) with false
          by (symmetry; apply N.ltb_ge; euclid).
        replace (240 + c / 262144 <? 224) with false
          by (symmetry; apply N.ltb_ge; euclid).
        replace (240 + c / 262144 <? 240) with false
          by (symmetry; apply N.ltb_ge; euclid).
        f_equal. euclid.
Qed.

Lemma encode_bytes (s : text) (bs : list N) :
  encode s = Some bs -> Forall (fun b => b < 256) bs.
Proof.
  revert bs. induction s as [|c s IH]; intros bs; cbn [encode].
  - intros H. injection H as <-. constructor.
  - destruct (utf8 c) as [b|] eqn:Hc; [|discriminate].
    destruct (encode s) as [bs'|]; [|discriminate].
    intros H. injection H as <-. apply Forall_app. split.
    + eapply utf8_bytes. exact Hc.
    + apply IH. reflexivity.
Qed.

Lemma decode_encode (s : text) (bs : list N) :
  encode s = Some bs -> decode bs = s.
Proof.
  revert bs. induction s as [|c s IH]; intros bs; cbn [encode].
  - intros H. injection H as <-. reflexivity.
  - destruct (utf8 c) as [b|] eqn:Hc; [|discriminate].
    destruct (encode s) as [bs'|]; [|discriminate].
    intros H. injection H as <-.
    rewrite (decode_utf8 c b bs' Hc), (IH bs' eq_refl). reflexivity.
Qed.

Lemma encode_app (a b : text) :
  encode (a ++ b)
  = match encode a, encode b with
    | Some x, Some y => Some (x ++ y)%list
    | _, _ => None
    end.
Proof.
  induction a as [|c a IH]; cbn [List.app encode].
  - destruct (encode b); reflexivity.
  - rewrite IH. destruct (utf8 c) as [x|]; [|reflexivity].
    destruct (encode a) as [xs|]; [|reflexivity].
    destruct (encode b) as [ys|]; [|reflexivity].
    rewrite app_assoc. reflexivity.
Qed.

Lemma quote_app (a b : text) :
  quote (a ++ b)
  = match quote a, quote b with
    | Some x, Some y => Some (x ++ y)%list
    | _, _ => None
    end.
Proof.
  unfold quote. rewrite encode_app.
  destruct (encode a) as [x|]; [|reflexivity].
  destruct (encode b) as [y|]; [|reflexivity].
  cbn [option_map]. unfold quote_from_bytes. rewrite flat_map_app.
  reflexivity.
Qed.

Lemma quote_injective (a b q : text) :
  quote a = Some q -> quote b = Some q -> a = b.
Proof.
  unfold quote. destruct (encode a) as [x|] eqn:Ha; [|discriminate].
  destruct (encode b) as [y|] eqn:Hb; [|discriminate].
  cbn [option_map]. intros Hx Hy. injection Hx as Hx. injection Hy as Hy.
  assert (Hxy : x = y).
  { rewrite <- (unquote_quote_from_bytes x (encode_bytes a x Ha)).
    rewrite <- (unquote_quote_from_bytes y (encode_bytes b y Hb)).
    rewrite Hx, Hy. reflexivity. }
  rewrite <- (decode_encode a x Ha), <- (decode_encode b y Hb), Hxy.
  reflexivity.
Qed.

(** The 8-bit model of [Urls] is this one on the code points below 256. *)
Lemma latin1_quote (s : string) :
  quote (codes s) = Some (codes (Urls.quote s)).
Proof.
  unfold quote, Urls.quote, Urls.encode.
  assert (Henc : encode (codes s)
                 = Some (flat_map Urls.utf8 (list_ascii_of_string s))).
  { unfold codes. induction s as [|c s IH]; [reflexivity|].
    cbn [list_ascii_of_string map encode flat_map]. rewrite IH.
    replace (utf8 (N_of_ascii c)) with (Some (Urls.utf8 c));
      [reflexivity|].
    destruct c as [[] [] [] [] [] [] [] []]; reflexivity. }
  rewrite Henc. clear Henc. cbn [option_map]. f_equal.
  induction (flat_map Urls.utf8 (list_ascii_of_string s)) as [|b bs IH];
    [reflexivity|].
  cbn [Urls.quote_from_bytes]. rewrite codes_app, <- IH. reflexivity.
Qed.

Lemma latin1_build_url (base_url command : string) :
  build_url (codes base_url) (Some (codes command))
  = Some (codes (Urls.build_url base_url (Some command))).
Proof.
  cbn [build_url Urls.build_url]. rewrite latin1_quote. cbn [option_map].
  rewrite !codes_app. reflexivity.
Qed.

End UnicodeFacts.

(** X13.  Percent-quoting goes through concatenation, for strings of any
    code points: the quoted text of [a + b] is the quoted text of [a]
    followed by that of [b], and [a + b] cannot be encoded exactly when one
    of the two cannot.  So building a URL in two steps gives what building
    it in one step from [a + '/' + b] gives, the [UnicodeEncodeError]
    included. *)
Theorem build_url_composes (base_url a b : UnicodeUrls.text) :
  UnicodeUrls.quote (a ++ b)%list
  = match UnicodeUrls.quote a, UnicodeUrls.quote b with
    | Some x, Some y => Some (x ++ y)%list
    | _, _ => None
    end /\
  match UnicodeUrls.build_url base_url (Some a) with
  | Some url => UnicodeUrls.build_url url (Some b)
  | None => None
  end
  = UnicodeUrls.build_url base_url (Some (a ++ [47%N] ++ b)%list).
Proof.
  split; [apply quote_app|].
  cbn [UnicodeUrls.build_url]. rewrite !quote_app.
  replace (UnicodeUrls.quote [47%N]) with (Some [47%N]) by reflexivity.
  destruct (UnicodeUrls.quote a) as [x|]; cbn [option_map]; [|reflexivity].
  destruct (UnicodeUrls.quote b) as [y|]; cbn [option_map]; [|reflexivity].
  rewrite <- !app_assoc. reflexivity.
Qed.

(** X14.  Percent-quoting loses nothing, for strings of any code points:
    two commands that give the same URL on the same base are the same
    command, and two different commands give different URLs. *)
Theorem build_url_injective (base_url a b url_a url_b : UnicodeUrls.text) :
  UnicodeUrls.build_url base_url (Some a) = Some url_a ->
  UnicodeUrls.build_url base_url (Some b) = Some url_b ->
  (url_a = url_b -> a = b) /\ (a <> b -> url_a <> url_b).
Proof.
  cbn [UnicodeUrls.build_url]. intros Ha Hb.
  assert (Hinj : url_a = url_b -> a = b).
  { intros Hsame. subst url_b.
    destruct (UnicodeUrls.quote a) as [x|] eqn:Hx; [|discriminate].
    destruct (UnicodeUrls.quote b) as [y|] eqn:Hy; [|discriminate].
    cbn [option_map] in Ha, Hb. rewrite <- Ha in Hb.
    apply some_inj in Hb. apply app_inv_head in Hb. apply app_inv_head in Hb.
    subst y. exact (quote_injective a b x Hx Hy). }
  split; [exact Hinj|]. intros Hdiff Hsame. apply Hdiff, Hinj, Hsame.
Qed.

Lemma build_url_injective_witness :
  (UnicodeUrls.codes "http://127.0.0.1:1234/v1"
     ++ [47%N] ++ UnicodeUrls.codes "%E2%82%AC")%list
  <> (UnicodeUrls.codes "http://127.0.0.1:1234/v1"
        ++ [47%N] ++ UnicodeUrls.codes "%25E2%2582%25AC")%list.
Proof.
  apply (build_url_injective
           (UnicodeUrls.codes "http://127.0.0.1:1234/v1")
           [8364%N] (UnicodeUrls.codes "%E2%82%AC")).
  - reflexivity.
  - reflexivity.
  - discriminate.
Defined.

(** X15.  Whatever the command, of any code points, the URL that
    [build_url] returns is the base, a slash, and a quoted command that
    holds only ASCII letters, digits, [_ . - ~ /] and the percent sign: no
    space, quote, [?], [#] or non-ASCII character follows the base. *)
Theorem quote_alphabet (base_url command url : UnicodeUrls.text) :
  UnicodeUrls.build_url base_url (Some command) = Some url ->
  exists quoted,
    url = (base_url ++ [47%N] ++ quoted)%list /\
    UnicodeUrls.quote command = Some quoted /\
    forallb UnicodeUrls.is_url_character quoted = true.
Proof.
  cbn [UnicodeUrls.build_url].
  destruct (UnicodeUrls.quote command) as [quoted|] eqn:Hq; [|discriminate].
  cbn [option_map]. intros Hurl. apply some_inj in Hurl.
  exists quoted. split; [symmetry; exact Hurl|]. split; [reflexivity|].
  unfold UnicodeUrls.quote in Hq.
  destruct (UnicodeUrls.encode command) as [bs|] eqn:Hbs; [|discriminate].
  cbn [option_map] in Hq. apply some_inj in Hq. subst quoted.
  apply quote_from_bytes_url_characters. eapply encode_bytes. exact Hbs.
Qed.

Lemma quote_alphabet_witness :
  exists quoted,
    (UnicodeUrls.codes "http://127.0.0.1:1234/v1"
       ++ [47%N] ++ UnicodeUrls.codes "a%20%E2%82%AC%F0%9F%98%80")%list
    = (UnicodeUrls.codes "http://127.0.0.1:1234/v1" ++ [47%N] ++ quoted)%list /\
    UnicodeUrls.quote [97%N; 32%N; 8364%N; 128512%N] = Some quoted /\
    forallb UnicodeUrls.is_url_character quoted = true.
Proof.
  apply (quote_alphabet (UnicodeUrls.codes "http://127.0.0.1:1234/v1")
           [97%N; 32%N; 8364%N; 128512%N]).
  reflexivity.
Defined.

(** ** Further properties of the validators *)

Lemma for_each_outcome {A} (body : A -> result unit) (l : list A) :
  for_each body l = Ret tt \/
  exists l1 x l2 e,
    l = (l1 ++ x :: l2)%list /\
    Forall (fun y => body y = Ret tt) l1 /\
    body x = Raise e /\
    for_each body l = Raise e.
Proof.
  induction l as [|y l IH]; [left; reflexivity|].
  simpl. destruct (body y) as [[]|e] eqn:Hy; simpl.
  - destruct IH as [Hok|[l1 [x [l2 [e [Hl [Hl1 [Hx He]]]]]]]]; [left; exact Hok|].
    right. exists (y :: l1), x, l2, e. subst l.
    repeat split; try assumption. constructor; assumption.
  - right. exists [], y, l, e. repeat split; try assumption. constructor.
Qed.

(** X16.  The numeric validators raise nothing but [CyError]: a sequence is
    either accepted, or rejected with the error that quotes its first
    offending element and carries the caller's name, also when that element
    is a string, [None] or a nested list; [verify_slot] either accepts or
    raises its one message. *)
Theorem numeric_validators_raise_only_CyError
  (caller dimension : string) (l : list pyval) (v : pyval) :
  (verify_opacities caller (PyList l) = Ret tt \/
   exists l1 x l2,
     l = (l1 ++ x :: l2)%list /\
     Forall (fun y => opacity_rejected y = false) l1 /\
     opacity_rejected x = true /\
     verify_opacities caller (PyList l)
     = Raise (CyError
         [Lit dquote; Fmt x; Lit dquote;
          Lit " is not a valid opacity (has to be an integer between 0 and 255)."]
         (Some caller))) /\
  (verify_dimensions caller dimension (PyList l) = Ret tt \/
   exists l1 x l2,
     l = (l1 ++ x :: l2)%list /\
     Forall (fun y => dimension_rejected y = false) l1 /\
     dimension_rejected x = true /\
     verify_dimensions caller dimension (PyList l)
     = Raise (CyError
         [Lit "Illegal "; Lit dimension; Lit " "; Lit dquote; Fmt x; Lit dquote;
          Lit ". It needs to be a number."]
         (Some caller))) /\
  (verify_slot caller v = Ret tt \/
   verify_slot caller v
   = Raise (CyError [Lit "slot must be an integer between 1 and 9"]
              (Some caller))).
Proof.
  split; [|split].
  - cbn [verify_opacities as_list].
    destruct (for_each_outcome (check_opacity caller) l)
      as [Hok|[l1 [x [l2 [e [Hl [Hl1 [Hx He]]]]]]]]; [left; exact Hok|].
    right. exists l1, x, l2. split; [exact Hl|]. split.
    + eapply Forall_impl; [|exact Hl1]. intros y. apply check_opacity_ok.
    + unfold check_opacity in Hx.
      destruct (opacity_rejected x); [|discriminate].
      split; [reflexivity|]. rewrite He. symmetry. exact Hx.
  - cbn [verify_dimensions as_list].
    destruct (for_each_outcome (check_dimension caller dimension) l)
      as [Hok|[l1 [x [l2 [e [Hl [Hl1 [Hx He]]]]]]]]; [left; exact Hok|].
    right. exists l1, x, l2. split; [exact Hl|]. split.
    + eapply Forall_impl; [|exact Hl1]. intros y. apply check_dimension_ok.
    + unfold check_dimension in Hx.
      destruct (dimension_rejected x); [|discriminate].
      split; [reflexivity|]. rewrite He. symmetry. exact Hx.
  - unfold verify_slot. destruct (slot_rejected v); [right|left]; reflexivity.
Qed.

(** X17.  [verify_hex_colors] on a sequence either accepts it, or stops at
    its first offending element: a string that does not start with [#] or
    is not 7 characters long raises the [CyError] quoting that string; an
    element that is not a string raises [AttributeError] instead. *)
Theorem verify_hex_colors_first_offender (caller : string) (l : list pyval) :
  verify_hex_colors caller (PyList l) = Ret tt \/
  exists l1 x l2,
    l = (l1 ++ x :: l2)%list /\
    verify_hex_colors caller (PyList l1) = Ret tt /\
    ((exists s,
        x = PyStr s /\
        (String.prefix "#" s = false \/ String.length s <> 7%nat) /\
        verify_hex_colors caller (PyList l)
        = Raise (CyError
            [Lit dquote; Fmt x; Lit dquote;
             Lit " is not a valid hexadecimal color (has to begin with # and be 7 characters long, for example: #FF00FF)."]
            (Some caller))) \/
     ((forall s, x <> PyStr s) /\
      verify_hex_colors caller (PyList l) = Raise AttributeError)).
Proof.
  cbn [verify_hex_colors as_list].
  destruct (for_each_outcome (check_hex_color caller) l)
    as [Hok|[l1 [x [l2 [e [Hl [Hl1 [Hx He]]]]]]]]; [left; exact Hok|].
  right. exists l1, x, l2. split; [exact Hl|]. split.
  - apply for_each_ok. exact Hl1.
  - rewrite He. unfold check_hex_color in Hx.
    destruct x; try (right; split; [intros s'; discriminate|];
                     injection Hx as <-; reflexivity).
    left. exists s. split; [reflexivity|].
    destruct (String.prefix "#" s) eqn:Hp;
      destruct (Nat.eqb_spec (String.length s) 7) as [Hlen|Hlen];
      simpl in Hx; try discriminate; injection Hx as <-;
      (split; [|reflexivity]); auto.
Qed.

(** ** The range validators on floats *)

Section FloatOrder.

Lemma SFcompare_antisym (x y : spec_float) :
  SFcompare y x = option_map CompOpp (SFcompare x y).
Proof.
  destruct x as [sx|sx| |sx mx ex], y as [sy|sy| |sy my ey];
    try destruct sx; try destruct sy; try reflexivity;
    cbn [SFcompare option_map]; f_equal;
    rewrite (Z.compare_antisym ex ey);
    pose proof (Pos.compare_cont_antisym mx my Eq) as Hm;
    cbn [CompOpp] in Hm; rewrite <- Hm;
    destruct (Z.compare ex ey); cbn [CompOpp]; try reflexivity;
    destruct (Pos.compare_cont Eq mx my); reflexivity.
Qed.

Lemma SFcompare_refl (x : spec_float) :
  SFcompare x x = match x with S754_nan => None | _ => Some Eq end.
Proof.
  destruct x as [s|s| |s m e]; try destruct s; try reflexivity;
    cbn [SFcompare]; rewrite Z.compare_refl, Pos.compare_cont_refl;
    reflexivity.
Qed.

Lemma SFcompare_nan (x y : spec_float) :
  SFcompare x y = None -> x = S754_nan \/ y = S754_nan.
Proof.
  destruct x as [sx|sx| |sx mx ex], y as [sy|sy| |sy my ey];
    try (right; reflexivity); try (left; reflexivity);
    cbn [SFcompare]; discriminate.
Qed.

(** For a bound [c] that is not NaN, [not (f < c)] is [f] NaN or [c <= f],
    and [not (f > c)] is [f] NaN or [f <= c]. *)
Lemma not_ltb (f c : float) :
  PrimFloat.is_nan c = false ->
  negb (PrimFloat.ltb f c) = PrimFloat.is_nan f || PrimFloat.leb c f.
Proof.
  unfold PrimFloat.is_nan. rewrite !FloatAxioms.eqb_spec, FloatAxioms.ltb_spec,
    FloatAxioms.leb_spec. unfold SFeqb, SFltb, SFleb.
  rewrite !SFcompare_refl, (SFcompare_antisym (Prim2SF f) (Prim2SF c)).
  intros Hc. destruct (SFcompare (Prim2SF f) (Prim2SF c)) as [[]|] eqn:Hcmp;
    destruct (Prim2SF f); try reflexivity;
    try (cbn [SFcompare] in Hcmp; discriminate Hcmp).
  apply SFcompare_nan in Hcmp. destruct Hcmp as [Hf|Hcn]; try discriminate.
  - rewrite Hcn in Hc. discriminate.
  - apply SFcompare_nan in Hcmp. destruct Hcmp as [Hf|Hcn]; try discriminate.
    rewrite Hcn in Hc. discriminate.
  - apply SFcompare_nan in Hcmp. destruct Hcmp as [Hf|Hcn]; try discriminate.
    rewrite Hcn in Hc. discriminate.
Qed.

Lemma not_gtb (f c : float) :
  PrimFloat.is_nan c = false ->
  negb (PrimFloat.ltb c f) = PrimFloat.is_nan f || PrimFloat.leb f c.
Proof.
  unfold PrimFloat.is_nan. rewrite !FloatAxioms.eqb_spec, FloatAxioms.ltb_spec,
    FloatAxioms.leb_spec. unfold SFeqb, SFltb, SFleb.
  rewrite !SFcompare_refl, (SFcompare_antisym (Prim2SF f) (Prim2SF c)).
  intros Hc. destruct (SFcompare (Prim2SF f) (Prim2SF c)) as [[]|] eqn:Hcmp;
    destruct (Prim2SF f); try reflexivity;
    try (cbn [SFcompare] in Hcmp; discriminate Hcmp).
  - apply SFcompare_nan in Hcmp. destruct Hcmp as [Hf|Hcn]; try discriminate.
    rewrite Hcn in Hc. discriminate.
  - apply SFcompare_nan in Hcmp. destruct Hcmp as [Hf|Hcn]; try discriminate.
    rewrite Hcn in Hc. discriminate.
  - apply SFcompare_nan in Hcmp. destruct Hcmp as [Hf|Hcn]; try discriminate.
    rewrite Hcn in Hc. discriminate.
Qed.

End FloatOrder.

(** X25.  On a float the two range validators accept exactly NaN and the
    floats of the closed range: [verify_opacities] accepts [f] when [f] is
    NaN or [0 <= f <= 255], [verify_slot] when [f] is NaN or [1 <= f <= 9];
    NaN passes because both comparisons of the test are false on it. *)
Theorem range_validators_on_floats (caller : string) (f : float) :
  (verify_opacities caller (PyFloat f) = Ret tt <->
   PrimFloat.is_nan f = true \/
   (PrimFloat.leb (float_of_literal 0) f = true /\
    PrimFloat.leb f (float_of_literal 255) = true)) /\
  (verify_slot caller (PyFloat f) = Ret tt <->
   PrimFloat.is_nan f = true \/
   (PrimFloat.leb (float_of_literal 1) f = true /\
    PrimFloat.leb f (float_of_literal 9) = true)).
Proof.
  assert (Hbool : forall n a b : bool,
            negb ((negb (n || a)) || (negb (n || b))) = true <->
            n = true \/ (a = true /\ b = true)).
  { intros [] [] []; simpl; intuition discriminate. }
  split.
  - cbn [verify_opacities as_list for_each]. unfold check_opacity.
    cbn [opacity_rejected as_number num_lt num_gt].
    rewrite <- (Hbool (PrimFloat.is_nan f)).
    rewrite <- (not_ltb f (float_of_literal 0)) by reflexivity.
    rewrite <- (not_gtb f (float_of_literal 255)) by reflexivity.
    rewrite !negb_involutive.
    destruct (PrimFloat.ltb f (float_of_literal 0) ||
              PrimFloat.ltb (float_of_literal 255) f);
      simpl; split; intros H; try reflexivity; discriminate.
  - unfold verify_slot. cbn [slot_rejected as_number num_lt num_gt].
    rewrite <- (Hbool (PrimFloat.is_nan f)).
    rewrite <- (not_ltb f (float_of_literal 1)) by reflexivity.
    rewrite <- (not_gtb f (float_of_literal 9)) by reflexivity.
    rewrite !negb_involutive.
    destruct (PrimFloat.ltb f (float_of_literal 1) ||
              PrimFloat.ltb (float_of_literal 9) f);
      simpl; split; intros H; try reflexivity; discriminate.
Qed.

(** ** Further properties of the style-dependency functions *)

(** X18.  A failing collaborator stops [set_style_dependencies] where it
    fails: when the query for the style names raises, nothing else is
    issued; when the PUT raises, the reapply command is not issued; in both
    cases the collaborator's exception is the outcome. *)
Theorem set_style_dependencies_stops_at_failure
  {remote : Type} (cy : cytoscape remote) (w : world remote)
  (style_name : string) (dependencies : list (string * pyval))
  (base_url : string) (e : exn) :
  let body := PyList (map dep_record dependencies) in
  let command := "styles/" ++ style_name ++ "/dependencies" in
  (forall app1,
     get_visual_style_names cy base_url (app w) = (Raise e, app1) ->
     set_style_dependencies cy style_name dependencies base_url w
     = (Raise e,
        {| app := app1;
           calls := calls w ++ [GetVisualStyleNames base_url] |})) /\
  (forall style_names app1 app2,
     get_visual_style_names cy base_url (app w) = (Ret style_names, app1) ->
     In style_name style_names ->
     cyrest_put cy command body base_url false app1 = (Raise e, app2) ->
     set_style_dependencies cy style_name dependencies base_url w
     = (Raise e,
        {| app := app2;
           calls := calls w ++ [GetVisualStyleNames base_url;
                                CyrestPut command body base_url false] |})).
Proof.
  intros body command. split.
  - intros app1 Hnames.
    unfold set_style_dependencies, mbind, styles_get_visual_style_names, issue.
    rewrite Hnames. reflexivity.
  - intros style_names app1 app2 Hnames Hknown Hput.
    apply known_style in Hknown.
    unfold set_style_dependencies, mbind, styles_get_visual_style_names, issue.
    rewrite Hnames, Hknown.
    unfold commands_cyrest_put, issue. cbn [app calls].
    fold body command. rewrite Hput. rewrite <- app_assoc. reflexivity.
Qed.

Lemma set_style_dependencies_stops_at_failure_witness :
  set_style_dependencies Cases.refusing "default"
    [("nodeSizeLocked", PyBool true)] Sample.base_url Sample.w0
  = (Raise (RequestException "500 Server Error"),
     {| app := app Sample.w0;
        calls := [GetVisualStyleNames Sample.base_url;
                  CyrestPut "styles/default/dependencies"
                    (PyList (map dep_record [("nodeSizeLocked", PyBool true)]))
                    Sample.base_url false] |}).
Proof.
  destruct (set_style_dependencies_stops_at_failure Cases.refusing Sample.w0
              "default" [("nodeSizeLocked", PyBool true)] Sample.base_url
              (RequestException "500 Server Error")) as [_ Hput].
  apply (Hput (Sample.style_names (app Sample.w0)) (app Sample.w0)
              (app Sample.w0)).
  - reflexivity.
  - simpl. left. reflexivity.
  - reflexivity.
Defined.

(** X19.  The specific setters go by the truth value of the state they are
    given: every truthy object, the string ['false'] among them, stages
    ['true'], and every falsy one stages ['false']. *)
Theorem specific_setters_follow_truthiness
  {remote : Type} (cy : cytoscape remote) (w : world remote)
  (new_state : pyval) (style_name base_url : string) :
  (truthy new_state = true ->
   match_arrow_color_to_edge cy new_state style_name base_url w
   = set_style_dependencies cy style_name
       [("arrowColorMatchesEdge", PyStr "true")] base_url w /\
   lock_node_dimensions cy new_state style_name base_url w
   = set_style_dependencies cy style_name
       [("nodeSizeLocked", PyStr "true")] base_url w /\
   sync_node_custom_graphics_size cy new_state style_name base_url w
   = set_style_dependencies cy style_name
       [("nodeCustomGraphicsSizeSync", PyStr "true")] base_url w) /\
  (truthy new_state = false ->
   match_arrow_color_to_edge cy new_state style_name base_url w
   = set_style_dependencies cy style_name
       [("arrowColorMatchesEdge", PyStr "false")] base_url w /\
   lock_node_dimensions cy new_state style_name base_url w
   = set_style_dependencies cy style_name
       [("nodeSizeLocked", PyStr "false")] base_url w /\
   sync_node_custom_graphics_size cy new_state style_name base_url w
   = set_style_dependencies cy style_name
       [("nodeCustomGraphicsSizeSync", PyStr "false")] base_url w).
Proof.
  unfold match_arrow_color_to_edge, lock_node_dimensions,
    sync_node_custom_graphics_size.
  split; intros ->; repeat split; apply mbind_ret.
Qed.

Lemma specific_setters_follow_truthiness_witness :
  lock_node_dimensions Sample.cy (PyStr "false") "default" Sample.base_url
    Sample.w0
  = set_style_dependencies Sample.cy "default"
      [("nodeSizeLocked", PyStr "true")] Sample.base_url Sample.w0.
Proof.
  destruct (specific_setters_follow_truthiness Sample.cy Sample.w0
              (PyStr "false") "default" Sample.base_url) as [Htrue _].
  apply (Htrue eq_refl).
Defined.

Section GetterFacts.

Import StyleDependenciesGet.

Lemma getitem_setitem (d : list (string * pyval)) (k k' : string) (v : pyval) :
  getitem (setitem d k v) k'
  = if String.eqb k k' then Some v else getitem d k'.
Proof.
  induction d as [|[k0 v0] d IH]; [reflexivity|].
  cbn [setitem]. destruct (String.eqb_spec k0 k) as [->|Hneq]; cbn [getitem].
  - destruct (String.eqb k k'); reflexivity.
  - rewrite IH. destruct (String.eqb_spec k0 k') as [->|Hneq'];
      [|reflexivity].
    destruct (String.eqb_spec k k') as [->|_]; [contradiction|reflexivity].
Qed.

Lemma keys_setitem (d : list (string * pyval)) (k k' : string) (v : pyval) :
  In k' (map fst (setitem d k v)) <-> k' = k \/ In k' (map fst d).
Proof.
  induction d as [|[k0 v0] d IH]; simpl.
  - intuition.
  - destruct (String.eqb_spec k0 k) as [->|Hneq]; simpl.
    + intuition.
    + rewrite IH. intuition.
Qed.

Lemma nodup_setitem (d : list (string * pyval)) (k : string) (v : pyval) :
  NoDup (map fst d) -> NoDup (map fst (setitem d k v)).
Proof.
  induction d as [|[k0 v0] d IH]; simpl; intros Hnd.
  - constructor; [intros []|constructor].
  - inversion Hnd as [|a t Hfresh Hrest]; subst.
    destruct (String.eqb_spec k0 k) as [->|Hneq]; simpl.
    + constructor; assumption.
    + constructor; [|apply IH; exact Hrest].
      rewrite keys_setitem. intros [Heq|Hin]; [congruence|contradiction].
Qed.

Lemma find_app' {A} (p : A -> bool) (l1 l2 : list A) :
  find p (l1 ++ l2)
  = match find p l1 with Some x => Some x | None => find p l2 end.
Proof.
  induction l1 as [|x l1 IH]; simpl; [reflexivity|].
  destruct (p x); [reflexivity|exact IH].
Qed.

Lemma dep_dict_spec (res : list dependency) (acc : list (string * pyval))
  (key : string) :
  let d := fold_left
             (fun d dep => setitem d (visualPropertyDependency dep) (enabled dep))
             res acc in
  (NoDup (map fst acc) -> NoDup (map fst d)) /\
  getitem d key
  = match find (fun dep => String.eqb (visualPropertyDependency dep) key)
            (rev res) with
    | Some dep => Some (enabled dep)
    | None => getitem acc key
    end.
Proof.
  revert acc. induction res as [|dep res IH]; intros acc; cbn zeta.
  - split; [auto|reflexivity].
  - cbn [fold_left rev]. destruct (IH (setitem acc (visualPropertyDependency dep)
                                               (enabled dep))) as [Hnd Hget].
    split.
    + intros Hacc. apply Hnd. apply nodup_setitem. exact Hacc.
    + rewrite Hget, find_app', getitem_setitem. cbn [find].
      destruct (find _ (rev res)); [reflexivity|].
      destruct (String.eqb (visualPropertyDependency dep) key); reflexivity.
Qed.

End GetterFacts.

(** X20.  With a style name that is not among the known style names,
    [get_style_dependencies] raises the unknown-style error having issued
    only the query for the names and the write to [stderr]: the GET of the
    dependencies is not sent. *)
Theorem get_style_dependencies_unknown_style_no_request
  {remote : Type} (cy : cytoscape remote)
  (cyrest_get : string -> string -> remote ->
                result (list StyleDependenciesGet.dependency) * remote)
  (w : StyleDependenciesGet.world remote)
  (style_name base_url : string) (style_names : list string) (app1 : remote) :
  get_visual_style_names cy base_url (StyleDependenciesGet.app w)
  = (Ret style_names, app1) ->
  ~ In style_name style_names ->
  let error :=
    "Error in py4cytoscape:get_style_dependencies. No visual style named "
      ++ dquote ++ style_name ++ dquote in
  StyleDependenciesGet.get_style_dependencies cy cyrest_get style_name
    base_url w
  = (Raise (CyError [Lit error] None),
     {| StyleDependenciesGet.app := app1;
        StyleDependenciesGet.calls :=
          StyleDependenciesGet.calls w
          ++ [StyleDependenciesGet.Issued (GetVisualStyleNames base_url);
              StyleDependenciesGet.Issued (StderrWrite error)] |}).
Proof.
  intros Hnames Hunknown error. apply unknown_style in Hunknown.
  unfold StyleDependenciesGet.get_style_dependencies.
  rewrite Hnames, Hunknown. fold error. rewrite <- app_assoc. reflexivity.
Qed.

Lemma get_style_dependencies_unknown_style_no_request_witness :
  StyleDependenciesGet.get_style_dependencies Sample.cy Cases.cyrest_get
    "bogus" Sample.base_url Cases.w0
  = (Raise (CyError
       [Lit ("Error in py4cytoscape:get_style_dependencies. No visual style named "
             ++ dquote ++ "bogus" ++ dquote)] None),
     {| StyleDependenciesGet.app := StyleDependenciesGet.app Cases.w0;
        StyleDependenciesGet.calls :=
          [StyleDependenciesGet.Issued (GetVisualStyleNames Sample.base_url);
           StyleDependenciesGet.Issued
             (StderrWrite
                ("Error in py4cytoscape:get_style_dependencies. No visual style named "
                 ++ dquote ++ "bogus" ++ dquote))] |}).
Proof.
  apply (get_style_dependencies_unknown_style_no_request Sample.cy
           Cases.cyrest_get Cases.w0 "bogus" Sample.base_url
           (Sample.style_names (StyleDependenciesGet.app Cases.w0))
           (StyleDependenciesGet.app Cases.w0)).
  - reflexivity.
  - simpl. intuition discriminate.
Defined.

(** X21.  For a known style whose GET answers with a list of records,
    [get_style_dependencies] returns a dictionary with one entry per
    dependency name, no name twice, in which a name maps to the [enabled]
    value of the last record that carries it; the calls issued are the query
    for the names and the GET. *)
Theorem get_style_dependencies_last_record_wins
  {remote : Type} (cy : cytoscape remote)
  (cyrest_get : string -> string -> remote ->
                result (list StyleDependenciesGet.dependency) * remote)
  (w : StyleDependenciesGet.world remote)
  (style_name base_url : string) (style_names : list string)
  (app1 app2 : remote) (res : list StyleDependenciesGet.dependency) :
  let command := "styles/" ++ style_name ++ "/dependencies" in
  get_visual_style_names cy base_url (StyleDependenciesGet.app w)
  = (Ret style_names, app1) ->
  In style_name style_names ->
  cyrest_get command base_url app1 = (Ret res, app2) ->
  exists d,
    StyleDependenciesGet.get_style_dependencies cy cyrest_get style_name
      base_url w
    = (Ret d,
       {| StyleDependenciesGet.app := app2;
          StyleDependenciesGet.calls :=
            StyleDependenciesGet.calls w
            ++ [StyleDependenciesGet.Issued (GetVisualStyleNames base_url);
                StyleDependenciesGet.CyrestGet command base_url] |}) /\
    NoDup (map fst d) /\
    forall key,
      getitem d key
      = option_map StyleDependenciesGet.enabled
          (find (fun dep =>
                   String.eqb
                     (StyleDependenciesGet.visualPropertyDependency dep) key)
                (rev res)).
Proof.
  intros command Hnames Hknown Hget. apply known_style in Hknown.
  exists (StyleDependenciesGet.dep_dict res). split; [|split].
  - unfold StyleDependenciesGet.get_style_dependencies.
    rewrite Hnames, Hknown. fold command. rewrite Hget.
    rewrite <- app_assoc. reflexivity.
  - apply (dep_dict_spec res [] EmptyString). constructor.
  - intros key. unfold StyleDependenciesGet.dep_dict.
    destruct (dep_dict_spec res [] key) as [_ Hkey]. rewrite Hkey.
    destruct (find _ (rev res)); reflexivity.
Qed.

Lemma get_style_dependencies_last_record_wins_witness :
  exists d,
    StyleDependenciesGet.get_style_dependencies Sample.cy Cases.cyrest_get
      "galFiltered Style" Sample.base_url Cases.w0
    = (Ret d,
       {| StyleDependenciesGet.app := StyleDependenciesGet.app Cases.w0;
          StyleDependenciesGet.calls :=
            StyleDependenciesGet.calls Cases.w0
            ++ [StyleDependenciesGet.Issued (GetVisualStyleNames Sample.base_url);
                StyleDependenciesGet.CyrestGet
                  ("styles/" ++ "galFiltered Style" ++ "/dependencies")
                  Sample.base_url] |}) /\
    NoDup (map fst d) /\
    forall key,
      getitem d key
      = option_map StyleDependenciesGet.enabled
          (find (fun dep =>
                   String.eqb
                     (StyleDependenciesGet.visualPropertyDependency dep) key)
                (rev Cases.dependencies)).
Proof.
  apply (get_style_dependencies_last_record_wins Sample.cy Cases.cyrest_get
           Cases.w0 "galFiltered Style" Sample.base_url
           (Sample.style_names (StyleDependenciesGet.app Cases.w0))
           (StyleDependenciesGet.app Cases.w0)
           (StyleDependenciesGet.app Cases.w0)
           Cases.dependencies).
  - reflexivity.
  - simpl. right. left. reflexivity.
  - reflexivity.
Defined.

(** ** Properties of the version check *)

Import Versions.

Section VersionFacts.

Lemma digits_run (d rest : string) :
  forallb is_digit (list_ascii_of_string d) = true ->
  match rest with
  | String c _ => is_digit c = false
  | EmptyString => True
  end ->
  digits (d ++ rest) = (d, rest).
Proof.
  intros Hd Hrest. induction d as [|c d IH].
  - destruct rest as [|c r]; [reflexivity|]. simpl. rewrite Hrest. reflexivity.
  - cbn [list_ascii_of_string forallb] in Hd.
    apply andb_true_iff in Hd. destruct Hd as [Hc Hd].
    simpl. rewrite Hc, (IH Hd). reflexivity.
Qed.

Lemma match_api_well_formed (g : string) :
  g <> EmptyString -> forallb is_digit (list_ascii_of_string g) = true ->
  match_api ("v" ++ g) = Some g.
Proof.
  intros Hne Hg. cbn [append match_api]. cbn [Ascii.eqb Bool.eqb].
  replace g with (g ++ EmptyString)%string at 1
    by (clear; induction g as [|c g IH]; simpl; [|rewrite IH]; reflexivity).
  rewrite (digits_run g EmptyString Hg I).
  destruct g; [contradiction|reflexivity].
Qed.

Lemma match_cytoscape_well_formed (major minor patch : string) :
  major <> EmptyString -> minor <> EmptyString ->
  forallb is_digit (list_ascii_of_string major) = true ->
  forallb is_digit (list_ascii_of_string minor) = true ->
  rest_of_line patch = true ->
  match_cytoscape (major ++ "." ++ minor ++ "." ++ patch) = Some (major, minor).
Proof.
  intros Hmajor Hminor Hdmajor Hdminor Hpatch. unfold match_cytoscape.
  rewrite (digits_run major _ Hdmajor) by reflexivity.
  destruct major as [|c major]; [contradiction|].
  cbn [append]. cbn [Ascii.eqb Bool.eqb].
  rewrite (digits_run minor _ Hdminor) by reflexivity.
  destruct minor as [|c' minor]; [contradiction|].
  cbn [append]. cbn [Ascii.eqb Bool.eqb andb]. rewrite Hpatch. reflexivity.
Qed.

Lemma match_cytoscape_two_components (major minor : string) :
  forallb is_digit (list_ascii_of_string major) = true ->
  forallb is_digit (list_ascii_of_string minor) = true ->
  match_cytoscape (major ++ "." ++ minor) = None.
Proof.
  intros Hdmajor Hdminor. unfold match_cytoscape.
  rewrite (digits_run major _ Hdmajor) by reflexivity.
  destruct major as [|c major]; [reflexivity|].
  cbn [append]. cbn [Ascii.eqb Bool.eqb].
  replace minor with (minor ++ EmptyString)%string
    by (clear; induction minor as [|x m IH]; simpl; [|rewrite IH]; reflexivity).
  rewrite (digits_run minor EmptyString Hdminor I).
  destruct minor; reflexivity.
Qed.

End VersionFacts.

Lemma verify_supported_versions_well_formed
  (cytoscape_version_info : string -> result version_info)
  (cyrest : Z) (cytoscape : float) (base_url : string) (v : version_info)
  (g major minor patch : string) :
  cytoscape_version_info base_url = Ret v ->
  apiVersion v = "v" ++ g ->
  cytoscapeVersion v = major ++ "." ++ minor ++ "." ++ patch ->
  g <> EmptyString -> major <> EmptyString -> minor <> EmptyString ->
  forallb is_digit (list_ascii_of_string g) = true ->
  forallb is_digit (list_ascii_of_string major) = true ->
  forallb is_digit (list_ascii_of_string minor) = true ->
  rest_of_line patch = true ->
  verify_supported_versions cytoscape_version_info cyrest cytoscape base_url
  = if PrimFloat.ltb (float_of_decimal major minor) cytoscape
    then Raise (CyError
           [Lit "Function not run due to unsupported version: ";
            Lit "Cytoscape version "; Fmt (PyFloat cytoscape);
            Lit " or greater is required. You are currently working with version ";
            Fmt (PyFloat (float_of_decimal major minor)); Lit "."] None)
    else if cyrest >? int_of_digits g
    then Raise (CyError
           [Lit "Function not run due to unsupported version: ";
            Lit "CyREST API version "; Fmt (PyInt cyrest);
            Lit " or greater is required. You are currently working with version ";
            Fmt (PyInt (int_of_digits g)); Lit "."] None)
    else Ret tt.
Proof.
  intros Hinfo Hapi Hcy Hg Hmajor Hminor Hdg Hdmajor Hdminor Hpatch.
  unfold verify_supported_versions. rewrite Hinfo. cbn [bind].
  rewrite Hapi, Hcy, (match_api_well_formed g Hg Hdg),
    (match_cytoscape_well_formed major minor patch) by assumption.
  destruct (PrimFloat.ltb (float_of_decimal major minor) cytoscape);
    destruct (cyrest >? int_of_digits g); reflexivity.
Qed.


(** X22.  With an API version [v] followed by digits and an application
    version [major.minor.patch], [verify_supported_versions] compares the
    integer after [v] and the float [major.minor] with the two minimums.
    It returns when neither is too small; when the application is too old
    it raises with the Cytoscape message, also when the API is too old as
    well, whose message is then lost; when only the API is too old it raises
    with the CyREST message. *)
Theorem verify_supported_versions_outcome
  (cytoscape_version_info : string -> result version_info)
  (cyrest : Z) (cytoscape : float) (base_url : string) (v : version_info)
  (g major minor patch : string) :
  cytoscape_version_info base_url = Ret v ->
  apiVersion v = "v" ++ g ->
  cytoscapeVersion v = major ++ "." ++ minor ++ "." ++ patch ->
  g <> EmptyString -> major <> EmptyString -> minor <> EmptyString ->
  forallb is_digit (list_ascii_of_string g) = true ->
  forallb is_digit (list_ascii_of_string major) = true ->
  forallb is_digit (list_ascii_of_string minor) = true ->
  rest_of_line patch = true ->
  verify_supported_versions cytoscape_version_info cyrest cytoscape base_url
  = if PrimFloat.ltb (float_of_decimal major minor) cytoscape
    then Raise (CyError
           [Lit "Function not run due to unsupported version: ";
            Lit "Cytoscape version "; Fmt (PyFloat cytoscape);
            Lit " or greater is required. You are currently working with version ";
            Fmt (PyFloat (float_of_decimal major minor)); Lit "."] None)
    else if cyrest >? int_of_digits g
    then Raise (CyError
           [Lit "Function not run due to unsupported version: ";
            Lit "CyREST API version "; Fmt (PyInt cyrest);
            Lit " or greater is required. You are currently working with version ";
            Fmt (PyInt (int_of_digits g)); Lit "."] None)
    else Ret tt.
Proof.
  intros. eapply verify_supported_versions_well_formed; eassumption.
Qed.

Lemma verify_supported_versions_outcome_witness :
  verify_supported_versions (VersionSamples.running "v1" "3.8.0") 1
    VersionSamples.minimum_3_6 Sample.base_url
  = Ret tt.
Proof.
  rewrite (verify_supported_versions_outcome
             (VersionSamples.running "v1" "3.8.0") 1 VersionSamples.minimum_3_6
             Sample.base_url
             {| apiVersion := "v1"; cytoscapeVersion := "3.8.0" |}
             "1" "3" "8" "0");
    try reflexivity; discriminate.
Defined.

(** X23.  Version strings of another shape do not give the version error
    but [AttributeError]: an API version that does not begin with [v], and,
    with a well-formed API version, an application version of two
    components only, such as [3.8]. *)
Theorem verify_supported_versions_malformed
  (cytoscape_version_info : string -> result version_info)
  (cyrest : Z) (cytoscape : float) (base_url : string) (v : version_info) :
  cytoscape_version_info base_url = Ret v ->
  ((forall r, apiVersion v <> String "v" r) ->
   verify_supported_versions cytoscape_version_info cyrest cytoscape base_url
   = Raise AttributeError) /\
  (forall g major minor,
     apiVersion v = "v" ++ g -> g <> EmptyString ->
     forallb is_digit (list_ascii_of_string g) = true ->
     cytoscapeVersion v = major ++ "." ++ minor ->
     forallb is_digit (list_ascii_of_string major) = true ->
     forallb is_digit (list_ascii_of_string minor) = true ->
     verify_supported_versions cytoscape_version_info cyrest cytoscape base_url
     = Raise AttributeError).
Proof.
  intros Hinfo. unfold verify_supported_versions. rewrite Hinfo. cbn [bind].
  split.
  - intros Hv. unfold match_api. destruct (apiVersion v) as [|c r];
      [reflexivity|].
    destruct (Ascii.eqb_spec c "v") as [->|_]; [|reflexivity].
    exfalso. apply (Hv r). reflexivity.
  - intros g major minor Hapi Hg Hdg Hcy Hdmajor Hdminor.
    rewrite Hapi, Hcy, (match_api_well_formed g Hg Hdg),
      (match_cytoscape_two_components major minor Hdmajor Hdminor).
    reflexivity.
Qed.

Lemma verify_supported_versions_malformed_witness :
  verify_supported_versions (VersionSamples.running "v1" "3.8") 1
    VersionSamples.minimum_3_6 Sample.base_url
  = Raise AttributeError.
Proof.
  destruct (verify_supported_versions_malformed
              (VersionSamples.running "v1" "3.8") 1 VersionSamples.minimum_3_6
              Sample.base_url
              {| apiVersion := "v1"; cytoscapeVersion := "3.8" |} eq_refl)
    as [_ Htwo].
  apply (Htwo "1" "3" "8"); try reflexivity. discriminate.
Defined.

(** X24.  An application version [3.10.x] is read as the float 3.1: with
    the default minimum 3.6 the check raises the Cytoscape version error
    for every patch level, whatever the (well-formed) API version and API
    minimum. *)
Theorem verify_supported_versions_rejects_3_10
  (cytoscape_version_info : string -> result version_info)
  (cyrest : Z) (base_url : string) (v : version_info) (g patch : string) :
  cytoscape_version_info base_url = Ret v ->
  apiVersion v = "v" ++ g ->
  cytoscapeVersion v = "3.10." ++ patch ->
  g <> EmptyString ->
  forallb is_digit (list_ascii_of_string g) = true ->
  rest_of_line patch = true ->
  float_of_decimal "3" "10" = float_of_decimal "3" "1" /\
  verify_supported_versions cytoscape_version_info cyrest
    (float_of_decimal "3" "6") base_url
  = Raise (CyError
      [Lit "Function not run due to unsupported version: ";
       Lit "Cytoscape version "; Fmt (PyFloat (float_of_decimal "3" "6"));
       Lit " or greater is required. You are currently working with version ";
       Fmt (PyFloat (float_of_decimal "3" "1")); Lit "."] None).
Proof.
  intros Hinfo Hapi Hcy Hg Hdg Hpatch.
  assert (Hsame : float_of_decimal "3" "10" = float_of_decimal "3" "1")
    by (vm_compute; reflexivity).
  split; [exact Hsame|].
  rewrite (verify_supported_versions_well_formed cytoscape_version_info
             cyrest (float_of_decimal "3" "6") base_url v g "3" "10" patch);
    try assumption; try discriminate; reflexivity.
Qed.

Lemma verify_supported_versions_rejects_3_10_witness :
  verify_supported_versions (VersionSamples.running "v1" "3.10.2") 1
    (float_of_decimal "3" "6") Sample.base_url
  = Raise (CyError
      [Lit "Function not run due to unsupported version: ";
       Lit "Cytoscape version "; Fmt (PyFloat (float_of_decimal "3" "6"));
       Lit " or greater is required. You are currently working with version ";
       Fmt (PyFloat (float_of_decimal "3" "1")); Lit "."] None).
Proof.
  apply (verify_supported_versions_rejects_3_10
           (VersionSamples.running "v1" "3.10.2") 1 Sample.base_url
           {| apiVersion := "v1"; cytoscapeVersion := "3.10.2" |} "1" "2");
    try reflexivity. discriminate.
Defined.
